(** * taurus-pro-opentelemetry: the tracing adapter layer, embedded and checked

    A shallow embedding of [pkg/otelemetry] (options.go, provider.go,
    otel_mysql.go with the tracer registry, otel_redis.go) and of the gRPC
    interceptor of [example/grpc/main.go].

    Go code that mutates the process (package variables, the tracing SDK's
    spans, exporters and tracer providers) is written in a state monad over
    [World] whose outcome is either a returned value or a Go panic.  The
    tracing SDK itself is outside the repository; it is represented by a
    recording double: every SDK object a call creates is appended to a store
    of the world and every call on a span is recorded on that span. *)

From Stdlib Require Import ZArith Floats Lia.
From stdpp Require Import base strings list gmap.

Local Open Scope Z_scope.

(* ================================================================== *)
(** ** Go values shared by all files                                   *)
(* ================================================================== *)

(** Go's [error] interface.  A nil error is [None] of [option error].
    [RedisNil] is the sentinel [redis.Nil], compared by identity in the
    source; [Wrapf p e] is [fmt.Errorf(p + ": %w", e)]. *)
Inductive error : Type :=
| RedisNil
| ErrorString (msg : string)
| GrpcStatus (code : string) (msg : string)
| Wrapf (prefix : string) (inner : error).

(** The method [Error()]. *)
Fixpoint Error (e : error) : string :=
  match e with
  | RedisNil => "redis: nil"
  | ErrorString msg => msg
  | GrpcStatus code msg => "rpc error: code = " +:+ code +:+ " desc = " +:+ msg
  | Wrapf prefix inner => prefix +:+ ": " +:+ Error inner
  end.

(** [err != redis.Nil] on a non-nil error. *)
Definition is_redis_Nil (e : error) : bool :=
  match e with RedisNil => true | _ => false end.

(** [time.Duration]: a count of nanoseconds. *)
Definition Duration := Z.
Definition Second : Duration := 1000000000.

(** [interface{}] payloads of requests and responses. *)
Inductive any : Type :=
| AnyNil
| AnyString (s : string)
| AnyInt (n : Z).

(* ================================================================== *)
(** ** options.go                                                      *)
(* ================================================================== *)

Module Options.

(** [type ExportProtocol string] *)
Definition ExportProtocol := string.
Definition ProtocolGRPC : ExportProtocol := "grpc".
Definition ProtocolHTTP : ExportProtocol := "http".
Definition ProtocolJSON : ExportProtocol := "json".

Record options : Type := mkOptions {
  serviceName : string;
  serviceVersion : string;
  environment : string;
  protocol : ExportProtocol;
  endpoint : string;
  insecure : bool;
  timeout : Duration;
  samplingRatio : float;
  batchTimeout : Duration;
  exportTimeout : Duration;
  maxExportBatchSize : Z;
  maxQueueSize : Z
}.

(** [type Option func(o)] with [o] a pointer to [options].  The pointed-to
    record is threaded through the function; a nil func value is [None]. *)
Definition Option := option (options -> options).

Definition defaultOptions : options :=
  {| serviceName := "unknown-service";
     serviceVersion := "1.0.0";
     environment := "development";
     protocol := ProtocolGRPC;
     endpoint := "localhost:4317";
     insecure := true;
     timeout := 5 * Second;
     samplingRatio := 1.0%float;
     batchTimeout := 5 * Second;
     exportTimeout := 30 * Second;
     maxExportBatchSize := 512;
     maxQueueSize := 2048 |}.

Definition WithServiceName (name : string) : Option :=
  Some (fun o => mkOptions name (serviceVersion o) (environment o) (protocol o)
    (endpoint o) (insecure o) (timeout o) (samplingRatio o) (batchTimeout o)
    (exportTimeout o) (maxExportBatchSize o) (maxQueueSize o)).

Definition WithServiceVersion (version : string) : Option :=
  Some (fun o => mkOptions (serviceName o) version (environment o) (protocol o)
    (endpoint o) (insecure o) (timeout o) (samplingRatio o) (batchTimeout o)
    (exportTimeout o) (maxExportBatchSize o) (maxQueueSize o)).

Definition WithEnvironment (env : string) : Option :=
  Some (fun o => mkOptions (serviceName o) (serviceVersion o) env (protocol o)
    (endpoint o) (insecure o) (timeout o) (samplingRatio o) (batchTimeout o)
    (exportTimeout o) (maxExportBatchSize o) (maxQueueSize o)).

Definition WithEndpoint (ep : string) : Option :=
  Some (fun o => mkOptions (serviceName o) (serviceVersion o) (environment o)
    (protocol o) ep (insecure o) (timeout o) (samplingRatio o) (batchTimeout o)
    (exportTimeout o) (maxExportBatchSize o) (maxQueueSize o)).

Definition WithInsecure (b : bool) : Option :=
  Some (fun o => mkOptions (serviceName o) (serviceVersion o) (environment o)
    (protocol o) (endpoint o) b (timeout o) (samplingRatio o) (batchTimeout o)
    (exportTimeout o) (maxExportBatchSize o) (maxQueueSize o)).

Definition WithTimeout (d : Duration) : Option :=
  Some (fun o => mkOptions (serviceName o) (serviceVersion o) (environment o)
    (protocol o) (endpoint o) (insecure o) d (samplingRatio o) (batchTimeout o)
    (exportTimeout o) (maxExportBatchSize o) (maxQueueSize o)).

Definition WithSamplingRatio (ratio : float) : Option :=
  Some (fun o => mkOptions (serviceName o) (serviceVersion o) (environment o)
    (protocol o) (endpoint o) (insecure o) (timeout o) ratio (batchTimeout o)
    (exportTimeout o) (maxExportBatchSize o) (maxQueueSize o)).

Definition WithBatchTimeout (d : Duration) : Option :=
  Some (fun o => mkOptions (serviceName o) (serviceVersion o) (environment o)
    (protocol o) (endpoint o) (insecure o) (timeout o) (samplingRatio o) d
    (exportTimeout o) (maxExportBatchSize o) (maxQueueSize o)).

Definition WithExportTimeout (d : Duration) : Option :=
  Some (fun o => mkOptions (serviceName o) (serviceVersion o) (environment o)
    (protocol o) (endpoint o) (insecure o) (timeout o) (samplingRatio o)
    (batchTimeout o) d (maxExportBatchSize o) (maxQueueSize o)).

Definition WithMaxExportBatchSize (size : Z) : Option :=
  Some (fun o => mkOptions (serviceName o) (serviceVersion o) (environment o)
    (protocol o) (endpoint o) (insecure o) (timeout o) (samplingRatio o)
    (batchTimeout o) (exportTimeout o) size (maxQueueSize o)).

Definition WithMaxQueueSize (size : Z) : Option :=
  Some (fun o => mkOptions (serviceName o) (serviceVersion o) (environment o)
    (protocol o) (endpoint o) (insecure o) (timeout o) (samplingRatio o)
    (batchTimeout o) (exportTimeout o) (maxExportBatchSize o) size).

Definition WithExportProtocol (p : ExportProtocol) : Option :=
  Some (fun o => mkOptions (serviceName o) (serviceVersion o) (environment o) p
    (endpoint o) (insecure o) (timeout o) (samplingRatio o) (batchTimeout o)
    (exportTimeout o) (maxExportBatchSize o) (maxQueueSize o)).

(** The loop at the head of [NewOTelProvider]:
    [options := defaultOptions(); for _, opt := range opts { opt(options) }].
    Calling a nil func value panics; [None] is that panic. *)
Fixpoint applyOptions (opts : list Option) (o : options) : option options :=
  match opts with
  | [] => Some o
  | None :: _ => None
  | Some opt :: rest => applyOptions rest (opt o)
  end.

(** *** Vocabulary for stating which field an option sets

    The twelve fields, the values they hold, and a description of each
    [With...] call; [to_Option] gives the option the call returns. *)
Inductive Field : Type :=
| FServiceName | FServiceVersion | FEnvironment | FProtocol | FEndpoint
| FInsecure | FTimeout | FSamplingRatio | FBatchTimeout | FExportTimeout
| FMaxExportBatchSize | FMaxQueueSize.

Inductive FieldValue : Type :=
| VStr (s : string)
| VBool (b : bool)
| VDur (d : Duration)
| VFloat (f : float)
| VInt (n : Z).

Definition get_field (f : Field) (o : options) : FieldValue :=
  match f with
  | FServiceName => VStr (serviceName o)
  | FServiceVersion => VStr (serviceVersion o)
  | FEnvironment => VStr (environment o)
  | FProtocol => VStr (protocol o)
  | FEndpoint => VStr (endpoint o)
  | FInsecure => VBool (insecure o)
  | FTimeout => VDur (timeout o)
  | FSamplingRatio => VFloat (samplingRatio o)
  | FBatchTimeout => VDur (batchTimeout o)
  | FExportTimeout => VDur (exportTimeout o)
  | FMaxExportBatchSize => VInt (maxExportBatchSize o)
  | FMaxQueueSize => VInt (maxQueueSize o)
  end.

Inductive Call : Type :=
| CServiceName (name : string)
| CServiceVersion (version : string)
| CEnvironment (env : string)
| CEndpoint (ep : string)
| CInsecure (b : bool)
| CTimeout (d : Duration)
| CSamplingRatio (ratio : float)
| CBatchTimeout (d : Duration)
| CExportTimeout (d : Duration)
| CMaxExportBatchSize (size : Z)
| CMaxQueueSize (size : Z)
| CExportProtocol (p : ExportProtocol).

Definition to_Option (c : Call) : Option :=
  match c with
  | CServiceName name => WithServiceName name
  | CServiceVersion version => WithServiceVersion version
  | CEnvironment env => WithEnvironment env
  | CEndpoint ep => WithEndpoint ep
  | CInsecure b => WithInsecure b
  | CTimeout d => WithTimeout d
  | CSamplingRatio ratio => WithSamplingRatio ratio
  | CBatchTimeout d => WithBatchTimeout d
  | CExportTimeout d => WithExportTimeout d
  | CMaxExportBatchSize size => WithMaxExportBatchSize size
  | CMaxQueueSize size => WithMaxQueueSize size
  | CExportProtocol p => WithExportProtocol p
  end.

(** The field a call names and the argument it was given. *)
Definition call_field (c : Call) : Field :=
  match c with
  | CServiceName _ => FServiceName
  | CServiceVersion _ => FServiceVersion
  | CEnvironment _ => FEnvironment
  | CEndpoint _ => FEndpoint
  | CInsecure _ => FInsecure
  | CTimeout _ => FTimeout
  | CSamplingRatio _ => FSamplingRatio
  | CBatchTimeout _ => FBatchTimeout
  | CExportTimeout _ => FExportTimeout
  | CMaxExportBatchSize _ => FMaxExportBatchSize
  | CMaxQueueSize _ => FMaxQueueSize
  | CExportProtocol _ => FProtocol
  end.

Definition call_value (c : Call) : FieldValue :=
  match c with
  | CServiceName s | CServiceVersion s | CEnvironment s | CEndpoint s
  | CExportProtocol s => VStr s
  | CInsecure b => VBool b
  | CTimeout d | CBatchTimeout d | CExportTimeout d => VDur d
  | CSamplingRatio r => VFloat r
  | CMaxExportBatchSize n | CMaxQueueSize n => VInt n
  end.

Definition Field_eqb (a b : Field) : bool :=
  match a, b with
  | FServiceName, FServiceName | FServiceVersion, FServiceVersion
  | FEnvironment, FEnvironment | FProtocol, FProtocol | FEndpoint, FEndpoint
  | FInsecure, FInsecure | FTimeout, FTimeout
  | FSamplingRatio, FSamplingRatio | FBatchTimeout, FBatchTimeout
  | FExportTimeout, FExportTimeout
  | FMaxExportBatchSize, FMaxExportBatchSize
  | FMaxQueueSize, FMaxQueueSize => true
  | _, _ => false
  end.

(** The argument of the last call of [cs] that names field [f], if any. *)
Fixpoint last_set (f : Field) (cs : list Call) : option FieldValue :=
  match cs with
  | [] => None
  | c :: rest =>
      match last_set f rest with
      | Some v => Some v
      | None => if Field_eqb (call_field c) f then Some (call_value c) else None
      end
  end.

End Options.

(* ================================================================== *)
(** ** The tracing SDK as the package sees it                          *)
(* ================================================================== *)

(** [go.opentelemetry.io/otel/codes] *)
Module codes.
Inductive Code : Type := Unset | Error | Ok.
End codes.

(** [attribute.KeyValue].  [DurationText d] stands for the text
    [d.String()] of a [time.Duration]. *)
Inductive AttrValue : Type :=
| StringValue (s : string)
| IntValue (n : Z)
| DurationText (d : Duration).

Definition KeyValue : Type := string * AttrValue.

Module attribute.
Definition String (k v : string) : KeyValue := (k, StringValue v).
Definition Int (k : string) (n : Z) : KeyValue := (k, IntValue n).
End attribute.

(** A span of the recording double: its name, the attributes attached so
    far, the status of the last [SetStatus], the errors given to
    [RecordError], and how many times [End] was called. *)
Record Span : Type := mkSpan {
  span_name : string;
  span_attributes : list KeyValue;
  span_status : codes.Code * string;
  span_errors : list error;
  span_ended : nat
}.

(** [trace.Span] handles are positions in the span store. *)
Abbreviation SpanRef := nat (only parsing).

(** [trace.Tracer]: the tracer provider that handed it out and its name. *)
Record Tracer : Type := mkTracer {
  tracer_provider : nat;
  tracer_name : string
}.

(** [peer.Peer]; [Addr] is an interface and may be nil. *)
Record Peer : Type := mkPeer { peer_Addr : option string }.

(** [context.Context] as the chain of [WithValue] bindings, newest first.
    [contextKey] is the package's own key type; the other keys belong to the
    SDK (current span) and to gRPC (peer, incoming metadata). *)
Inductive ctxKey : Type :=
| contextKey (name : string)
| currentSpanKey
| peerKey
| mdIncomingKey.

Inductive ctxValue : Type :=
| SpanValue (sp : SpanRef)
| PeerValue (p : option Peer)
| MDValue (md : list (string * list string))
| OtherValue (v : any).

Definition Context : Type := list (ctxKey * ctxValue).

Definition ctxKey_eqb (a b : ctxKey) : bool :=
  match a, b with
  | contextKey x, contextKey y => String.eqb x y
  | currentSpanKey, currentSpanKey => true
  | peerKey, peerKey => true
  | mdIncomingKey, mdIncomingKey => true
  | _, _ => false
  end.

Module context.
Definition Background : Context := [].
Definition WithValue (ctx : Context) (k : ctxKey) (v : ctxValue) : Context :=
  (k, v) :: ctx.
Fixpoint Value (ctx : Context) (k : ctxKey) : option ctxValue :=
  match ctx with
  | [] => None
  | (k', v) :: parent => if ctxKey_eqb k' k then Some v else Value parent k
  end.
End context.

(** Exporters, resources, samplers and tracer providers, as configured. *)
Inductive Transport : Type := TransportGRPC | TransportHTTP.

Inductive ExporterOption : Type :=
| ExpWithInsecure
| ExpWithEndpoint (ep : string)
| ExpWithTimeout (d : Duration)
| ExpWithHeaders (h : list (string * string)).

Record Exporter : Type := mkExporter {
  exp_transport : Transport;
  exp_options : list ExporterOption
}.

Definition Resource : Type := list KeyValue.

Inductive Sampler : Type :=
| ParentBased (root : Sampler)
| TraceIDRatioBased (ratio : float).

Record TracerProviderConfig : Type := mkTracerProviderConfig {
  tp_exporter : nat;
  tp_maxExportBatchSize : Z;
  tp_batchTimeout : Duration;
  tp_maxQueueSize : Z;
  tp_exportTimeout : Duration;
  tp_resource : Resource;
  tp_sampler : Sampler
}.

Inductive Propagator : Type := TraceContext | Baggage.

(** What the SDK's fallible calls answer: the error (nil when [None]) of
    [otlptracegrpc.New], [otlptracehttp.New], [resource.New] and of
    [TracerProvider.Shutdown]. *)
Record SdkEnv : Type := mkSdkEnv {
  grpc_New_err : list ExporterOption -> option error;
  http_New_err : list ExporterOption -> option error;
  resource_New_err : Resource -> option error;
  Shutdown_err : nat -> option error
}.

(** [sync.Once] and the provider struct of provider.go. *)
Record Once : Type := mkOnce { done : bool }.

Record OTelProvider : Type := mkOTelProvider {
  opts : Options.options;
  tracerProvider : option nat;
  once : Once
}.

(** The process: SDK stores, the SDK's globals, the clock, the log, and the
    package variables [Provider] and [tracerRegistry]. *)
Record World : Type := mkWorld {
  sdk : SdkEnv;
  clock : Z;
  spans : list Span;
  exporters : list Exporter;
  tracerProviders : list TracerProviderConfig;
  shutdowns : list nat;
  globalTracerProvider : option nat;
  globalPropagator : list Propagator;
  Provider : option OTelProvider;
  tracerRegistry : gmap string Tracer;
  logged : list string
}.

Definition set_spans (v : list Span) (w : World) : World :=
  mkWorld (sdk w) (clock w) v (exporters w) (tracerProviders w) (shutdowns w)
    (globalTracerProvider w) (globalPropagator w) (Provider w)
    (tracerRegistry w) (logged w).

Definition set_exporters (v : list Exporter) (w : World) : World :=
  mkWorld (sdk w) (clock w) (spans w) v (tracerProviders w) (shutdowns w)
    (globalTracerProvider w) (globalPropagator w) (Provider w)
    (tracerRegistry w) (logged w).

Definition set_tracerProviders (v : list TracerProviderConfig) (w : World)
  : World :=
  mkWorld (sdk w) (clock w) (spans w) (exporters w) v (shutdowns w)
    (globalTracerProvider w) (globalPropagator w) (Provider w)
    (tracerRegistry w) (logged w).

Definition set_shutdowns (v : list nat) (w : World) : World :=
  mkWorld (sdk w) (clock w) (spans w) (exporters w) (tracerProviders w) v
    (globalTracerProvider w) (globalPropagator w) (Provider w)
    (tracerRegistry w) (logged w).

Definition set_globalTracerProvider (v : option nat) (w : World) : World :=
  mkWorld (sdk w) (clock w) (spans w) (exporters w) (tracerProviders w)
    (shutdowns w) v (globalPropagator w) (Provider w) (tracerRegistry w)
    (logged w).

Definition set_globalPropagator (v : list Propagator) (w : World) : World :=
  mkWorld (sdk w) (clock w) (spans w) (exporters w) (tracerProviders w)
    (shutdowns w) (globalTracerProvider w) v (Provider w) (tracerRegistry w)
    (logged w).

Definition set_Provider (v : option OTelProvider) (w : World) : World :=
  mkWorld (sdk w) (clock w) (spans w) (exporters w) (tracerProviders w)
    (shutdowns w) (globalTracerProvider w) (globalPropagator w) v
    (tracerRegistry w) (logged w).

Definition set_tracerRegistry (v : gmap string Tracer) (w : World) : World :=
  mkWorld (sdk w) (clock w) (spans w) (exporters w) (tracerProviders w)
    (shutdowns w) (globalTracerProvider w) (globalPropagator w) (Provider w) v
    (logged w).

Definition set_logged (v : list string) (w : World) : World :=
  mkWorld (sdk w) (clock w) (spans w) (exporters w) (tracerProviders w)
    (shutdowns w) (globalTracerProvider w) (globalPropagator w) (Provider w)
    (tracerRegistry w) v.

(** The process at start-up: nothing created, [Provider] nil (the package
    declares it and never assigns it), the registry an empty map. *)
Definition initial_World (env : SdkEnv) : World :=
  mkWorld env 0 [] [] [] [] None [] None ∅ [].

(* ================================================================== *)
(** ** Go computations: state over [World], with panics                *)
(* ================================================================== *)

Inductive outcome (A : Type) : Type :=
| Returns (a : A)
| Panics (msg : string).
Arguments Returns {A} a.
Arguments Panics {A} msg.

Definition Go (A : Type) : Type := World -> outcome A * World.

#[export] Instance Go_ret : MRet Go := fun A a w => (Returns a, w).

#[export] Instance Go_bind : MBind Go := fun A B f m w =>
  match m w with
  | (Returns a, w') => f a w'
  | (Panics msg, w') => (Panics msg, w')
  end.

Definition panic {A : Type} (msg : string) : Go A := fun w => (Panics msg, w).

(** The run-time panic of reading through a nil pointer or calling a method
    of a nil interface. *)
Definition nil_dereference : string :=
  "runtime error: invalid memory address or nil pointer dereference".

(** [*p] for a pointer that may be nil. *)
Definition deref {A : Type} (p : option A) : Go A :=
  match p with
  | Some a => mret a
  | None => panic nil_dereference
  end.

Definition get_World : Go World := fun w => (Returns w, w).
Definition modify_World (f : World -> World) : Go unit :=
  fun w => (Returns tt, f w).

(** [defer d] at the head of [body]: [d] runs when [body] returns and also
    when it panics; the panic then continues. *)
Definition defer {A : Type} (d : Go unit) (body : Go A) : Go A := fun w =>
  let '(r, w1) := body w in
  match d w1 with
  | (Returns _, w2) => (r, w2)
  | (Panics msg, w2) => (Panics msg, w2)
  end.

(** [time.Now()] and [time.Since(t)] *)
Definition time_Now : Go Z := fun w => (Returns (clock w), w).
Definition time_Since (t : Z) : Go Duration :=
  fun w => (Returns (clock w - t), w).

(** [log.Printf] *)
Definition log_Printf (line : string) : Go unit :=
  modify_World (fun w => set_logged (logged w ++ [line]) w).

(** *** Calls on tracers and spans *)

Definition new_Span (name : string) (attrs : list KeyValue) : Span :=
  mkSpan name attrs (codes.Unset, "") [] 0.

(** [tracer.Start(ctx, name, trace.WithAttributes(attrs...))]: one more span
    in the store; the returned context carries it as the current span. *)
Definition Tracer_Start (t : Tracer) (ctx : Context) (name : string)
    (attrs : list KeyValue) : Go (Context * SpanRef) := fun w =>
  let sp := length (spans w) in
  (Returns (context.WithValue ctx currentSpanKey (SpanValue sp), sp),
   set_spans (spans w ++ [new_Span name attrs]) w).

Definition update_Span (sp : SpanRef) (f : Span -> Span) : Go unit :=
  modify_World (fun w => set_spans (alter f sp (spans w)) w).

Definition Span_SetAttributes (sp : SpanRef) (kvs : list KeyValue) : Go unit :=
  update_Span sp (fun s => mkSpan (span_name s) (span_attributes s ++ kvs)
    (span_status s) (span_errors s) (span_ended s)).

Definition Span_SetStatus (sp : SpanRef) (c : codes.Code) (description : string)
  : Go unit :=
  update_Span sp (fun s => mkSpan (span_name s) (span_attributes s)
    (c, description) (span_errors s) (span_ended s)).

Definition Span_RecordError (sp : SpanRef) (e : error) : Go unit :=
  update_Span sp (fun s => mkSpan (span_name s) (span_attributes s)
    (span_status s) (span_errors s ++ [e]) (span_ended s)).

Definition Span_End (sp : SpanRef) : Go unit :=
  update_Span sp (fun s => mkSpan (span_name s) (span_attributes s)
    (span_status s) (span_errors s) (S (span_ended s))).

(** *** SDK constructors and globals *)

(** A Go call returning [(T, error)] whose caller reads [T] only when the
    error is nil. *)
Inductive result (A : Type) : Type :=
| Success (a : A)
| Failure (e : error).
Arguments Success {A} a.
Arguments Failure {A} e.

(** [otlptracegrpc.New(ctx, opts...)] and [otlptracehttp.New(ctx, opts...)]:
    on success one more exporter exists. *)
Definition exporter_New (tr : Transport) (eopts : list ExporterOption)
  : Go (result nat) := fun w =>
  let answer := match tr with
                | TransportGRPC => grpc_New_err (sdk w) eopts
                | TransportHTTP => http_New_err (sdk w) eopts
                end in
  match answer with
  | Some e => (Returns (Failure e), w)
  | None => (Returns (Success (length (exporters w))),
             set_exporters (exporters w ++ [mkExporter tr eopts]) w)
  end.

(** [resource.New(ctx, resource.WithAttributes(attrs...))] *)
Definition resource_New (attrs : list KeyValue) : Go (result Resource) :=
  fun w =>
  match resource_New_err (sdk w) attrs with
  | Some e => (Returns (Failure e), w)
  | None => (Returns (Success attrs), w)
  end.

(** [sdktrace.NewTracerProvider(...)]: one more tracer provider exists. *)
Definition sdktrace_NewTracerProvider (cfg : TracerProviderConfig) : Go nat :=
  fun w => (Returns (length (tracerProviders w)),
            set_tracerProviders (tracerProviders w ++ [cfg]) w).

Definition otel_SetTracerProvider (tp : nat) : Go unit :=
  modify_World (set_globalTracerProvider (Some tp)).

Definition otel_SetTextMapPropagator (ps : list Propagator) : Go unit :=
  modify_World (set_globalPropagator ps).

(** [Tracer(name)] of the SDK's [TracerProvider]; the SDK's method reads fields
    of its receiver, so a nil receiver is a nil dereference. *)
Definition TracerProvider_Tracer (tp : option nat) (name : string)
  : Go Tracer :=
  h ← deref tp; mret (mkTracer h name).

(** [Shutdown(ctx)] of the SDK's [TracerProvider] *)
Definition TracerProvider_Shutdown (tp : nat) (ctx : Context)
  : Go (option error) := fun w =>
  (Returns (Shutdown_err (sdk w) tp), set_shutdowns (shutdowns w ++ [tp]) w).

(* ================================================================== *)
(** ** provider.go                                                     *)
(* ================================================================== *)

Import Options.

(** [o.Do(f)] of [sync.Once], for a closure [f] that may assign the captured
    variables [s]: [f] runs unless the guard is already done. *)
Definition Once_Do {S : Type} (o : Once) (f : S -> Go S) (s : S)
  : Go (Once * S) :=
  if done o then mret (o, s)
  else s' ← f s; mret (mkOnce true, s').

Definition createExporter (p : OTelProvider) : Go (result nat) :=
  let ep := endpoint (opts p) in
  let ep := if String.eqb ep "" then "localhost:4317" else ep in
  if String.eqb (protocol (opts p)) ProtocolGRPC then
    let ep := if String.eqb ep "" then "localhost:4317" else ep in
    let exporterOpts :=
      if insecure (opts p) then [ExpWithInsecure; ExpWithEndpoint ep]
      else [ExpWithEndpoint ep] in
    let exporterOpts :=
      if 0 <? timeout (opts p)
      then exporterOpts ++ [ExpWithTimeout (timeout (opts p))]
      else exporterOpts in
    exporter_New TransportGRPC exporterOpts
  else if String.eqb (protocol (opts p)) ProtocolHTTP
          || String.eqb (protocol (opts p)) ProtocolJSON then
    let ep := if String.eqb ep "" then "localhost:4318" else ep in
    let exporterOpts :=
      if insecure (opts p) then [ExpWithInsecure; ExpWithEndpoint ep]
      else [ExpWithEndpoint ep] in
    let exporterOpts :=
      if 0 <? timeout (opts p)
      then exporterOpts ++ [ExpWithTimeout (timeout (opts p))]
      else exporterOpts in
    let exporterOpts :=
      if String.eqb (protocol (opts p)) ProtocolJSON
      then exporterOpts ++ [ExpWithHeaders [("Content-Type", "application/json")]]
      else exporterOpts in
    exporter_New TransportHTTP exporterOpts
  else
    mret (Failure (ErrorString ("unsupported protocol: " +:+ protocol (opts p)))).

Definition createResource (p : OTelProvider) : Go (result Resource) :=
  resource_New
    [ attribute.String "service.name" (serviceName (opts p));
      attribute.String "service.version" (serviceVersion (opts p));
      attribute.String "environment" (environment (opts p)) ].

Definition createTracerProvider (p : OTelProvider) (exp : nat) (res : Resource)
  : Go nat :=
  sdktrace_NewTracerProvider
    {| tp_exporter := exp;
       tp_maxExportBatchSize := maxExportBatchSize (opts p);
       tp_batchTimeout := batchTimeout (opts p);
       tp_maxQueueSize := maxQueueSize (opts p);
       tp_exportTimeout := exportTimeout (opts p);
       tp_resource := res;
       tp_sampler := ParentBased (TraceIDRatioBased (samplingRatio (opts p))) |}.

(** [func (p *OTelProvider) Tracer(name string) trace.Tracer] *)
Definition OTelProvider_Tracer (p : OTelProvider) (name : string) : Go Tracer :=
  TracerProvider_Tracer (tracerProvider p) name.

(** [func (p *OTelProvider) Shutdown(ctx context.Context) error] *)
Definition Shutdown (p : OTelProvider) (ctx : Context) : Go (option error) :=
  match tracerProvider p with
  | None => mret None
  | Some tp => TracerProvider_Shutdown tp ctx
  end.

(** The closure given to [p.once.Do] in [NewOTelProvider].  It assigns the
    captured [p.tracerProvider] and [err], which are threaded as a pair. *)
Definition setup (p : OTelProvider) (captured : option nat * option error)
  : Go (option nat * option error) :=
  exporter ← createExporter p;
  match exporter with
  | Failure e => mret (fst captured, Some (Wrapf "create exporter failed" e))
  | Success exporter =>
      res ← createResource p;
      match res with
      | Failure e => mret (fst captured, Some (Wrapf "create resource failed" e))
      | Success res =>
          tp ← createTracerProvider p exporter res;
          otel_SetTracerProvider tp;;
          otel_SetTextMapPropagator [TraceContext; Baggage];;
          mret (Some tp, None)
      end
  end.

(** What [NewOTelProvider] returns: the provider (nil on failure), the
    clean-up closure, and the error. *)
Record NewOTelProvider_result : Type := mkResult {
  res_provider : option OTelProvider;
  res_cleanup : option (Go unit);
  res_err : option error
}.

Definition NewOTelProvider (os : list Option) : Go NewOTelProvider_result :=
  match applyOptions os defaultOptions with
  | None => panic nil_dereference
  | Some options =>
      let p := mkOTelProvider options None (mkOnce false) in
      '(o, (tp, err)) ← Once_Do (once p) (setup p) (tracerProvider p, None);
      let p := mkOTelProvider options tp o in
      match err with
      | Some e => mret (mkResult None None (Some (Wrapf "setup provider failed" e)))
      | None =>
          mret (mkResult (Some p)
                  (Some (Shutdown p context.Background;; mret tt)) None)
      end
  end.

(* ================================================================== *)
(** ** The tracer registry (package variable [tracerRegistry])         *)
(* ================================================================== *)

Definition RegisterTracer (name : string) (tracer : Tracer) : Go unit :=
  w ← get_World;
  (if decide (is_Some (tracerRegistry w !! name))
   then log_Printf ("Tracer " +:+ name +:+ " already registered")
   else mret tt);;
  modify_World (fun w => set_tracerRegistry (<[name := tracer]> (tracerRegistry w)) w).

(** [return Provider.Tracer("default")] reads [p.tracerProvider] through the
    package variable [Provider], a pointer that may be nil. *)
Definition GetTracer (name : string) : Go Tracer :=
  w ← get_World;
  match tracerRegistry w !! name with
  | Some tracer => mret tracer
  | None => p ← deref (Provider w); OTelProvider_Tracer p "default"
  end.

(* ================================================================== *)
(** ** otel_mysql.go: the GORM plugin                                  *)
(* ================================================================== *)

Definition dbSpanKey : ctxKey := contextKey "db_span".

(** The parts of [gorm.DB] the hook reads: [db.Statement.Schema] (nil until
    a model is parsed), [db.Statement.Context], [db.Statement.SQL] and
    [db.Error]. *)
Record Schema : Type := mkSchema { Table : string }.

Record Statement : Type := mkStatement {
  stmt_Schema : option Schema;
  stmt_Context : Context;
  stmt_SQL : string
}.

Record DB : Type := mkDB {
  db_Statement : Statement;
  db_Error : option error
}.

Record GormTracingHook : Type := mkGormTracingHook { gorm_Tracer : Tracer }.

Definition GormTracingHook_Name (h : GormTracingHook) : string :=
  "GormTracingHook".

(** [before]: Go evaluates the arguments of [h.Tracer.Start] before the
    call, among them [db.Statement.Schema.Table], which reads through the
    schema pointer. *)
Definition before (h : GormTracingHook) (db : DB) : Go DB :=
  let st := db_Statement db in
  let spanName :=
    match stmt_Schema st with
    | Some sch => "gorm." +:+ Table sch
    | None => "gorm"
    end in
  sch ← deref (stmt_Schema st);
  '(ctx, span) ← Tracer_Start (gorm_Tracer h) (stmt_Context st) spanName
      [ attribute.String "db.system" "mysql";
        attribute.String "db.operation" (Table sch);
        attribute.String "db.statement" (stmt_SQL st) ];
  mret (mkDB (mkStatement (stmt_Schema st)
                (context.WithValue ctx dbSpanKey (SpanValue span))
                (stmt_SQL st))
             (db_Error db)).

Definition after (h : GormTracingHook) (db : DB) : Go unit :=
  match context.Value (stmt_Context (db_Statement db)) dbSpanKey with
  | Some (SpanValue span) =>
      defer (Span_End span)
        match db_Error db with
        | Some e =>
            Span_RecordError span e;;
            Span_SetStatus span codes.Error (Error e)
        | None => mret tt
        end
  | _ => mret tt
  end.

(** [Initialize] registers the pair on the six callback processors. *)
Inductive Processor : Type := Create | Query | Delete | Update | Row | Raw.

Inductive Position : Type := Before (anchor : string) | After (anchor : string).

Record Registration : Type := mkRegistration {
  reg_processor : Processor;
  reg_position : Position;
  reg_name : string;
  reg_fn : DB -> Go DB
}.

Definition Initialize (h : GormTracingHook) : list Registration * option error :=
  let b := before h in
  let a := fun db => after h db;; mret db in
  ([ mkRegistration Create (Before "gorm:create") "tracing:before_create" b;
     mkRegistration Query (Before "gorm:query") "tracing:before_query" b;
     mkRegistration Delete (Before "gorm:delete") "tracing:before_delete" b;
     mkRegistration Update (Before "gorm:update") "tracing:before_update" b;
     mkRegistration Row (Before "gorm:row") "tracing:before_row" b;
     mkRegistration Raw (Before "gorm:raw") "tracing:before_raw" b;
     mkRegistration Create (After "gorm:create") "tracing:after_create" a;
     mkRegistration Query (After "gorm:query") "tracing:after_query" a;
     mkRegistration Delete (After "gorm:delete") "tracing:after_delete" a;
     mkRegistration Update (After "gorm:update") "tracing:after_update" a;
     mkRegistration Row (After "gorm:row") "tracing:after_row" a;
     mkRegistration Raw (After "gorm:raw") "tracing:after_raw" a ], None).

(** *** The host's callback processor

    GORM is outside the repository.  Its processor calls the callbacks of one
    operation one after the other on the same [db]: those registered before
    the operation's own callback, that callback, those registered after it.
    Nothing recovers a panic between them. *)
Definition Processor_eqb (a b : Processor) : bool :=
  match a, b with
  | Create, Create | Query, Query | Delete, Delete | Update, Update
  | Row, Row | Raw, Raw => true
  | _, _ => false
  end.

Definition core_callback (k : Processor) : string :=
  match k with
  | Create => "gorm:create" | Query => "gorm:query" | Delete => "gorm:delete"
  | Update => "gorm:update" | Row => "gorm:row" | Raw => "gorm:raw"
  end.

Definition runs_before (k : Processor) (r : Registration) : bool :=
  Processor_eqb (reg_processor r) k &&
  match reg_position r with
  | Before anchor => String.eqb anchor (core_callback k)
  | After _ => false
  end.

Definition runs_after (k : Processor) (r : Registration) : bool :=
  Processor_eqb (reg_processor r) k &&
  match reg_position r with
  | After anchor => String.eqb anchor (core_callback k)
  | Before _ => false
  end.

Fixpoint run_callbacks (fs : list (DB -> Go DB)) (db : DB) : Go DB :=
  match fs with
  | [] => mret db
  | f :: rest => db' ← f db; run_callbacks rest db'
  end.

Definition Execute (regs : list Registration) (k : Processor)
    (core : DB -> Go DB) (db : DB) : Go DB :=
  run_callbacks
    (map reg_fn (List.filter (runs_before k) regs)
     ++ core :: map reg_fn (List.filter (runs_after k) regs)) db.

(* ================================================================== *)
(** ** otel_redis.go: the Redis hook                                   *)
(* ================================================================== *)

Definition redisSpanKey : ctxKey := contextKey "redis_span".

(** [redis.Cmder]: what [Name()], [String()] and [Err()] answer. *)
Record Cmder : Type := mkCmder {
  cmd_Name : string;
  cmd_String : string;
  cmd_Err : option error
}.

Record RedisHook : Type := mkRedisHook { redis_Tracer : Tracer }.

Definition BeforeProcess (h : RedisHook) (ctx : Context) (cmd : Cmder)
  : Go (Context * option error) :=
  let spanName := "redis." +:+ cmd_Name cmd in
  '(ctx, span) ← Tracer_Start (redis_Tracer h) ctx spanName
      [ attribute.String "db.system" "redis";
        attribute.String "db.operation" (cmd_Name cmd);
        attribute.String "db.statement" (cmd_String cmd) ];
  mret (context.WithValue ctx redisSpanKey (SpanValue span), None).

Definition AfterProcess (h : RedisHook) (ctx : Context) (cmd : Cmder)
  : Go (option error) :=
  match context.Value ctx redisSpanKey with
  | Some (SpanValue span) =>
      defer (Span_End span)
        match cmd_Err cmd with
        | Some err =>
            if negb (is_redis_Nil err) then
              Span_RecordError span err;;
              Span_SetStatus span codes.Error (Error err)
            else mret tt
        | None => mret tt
        end
  | _ => mret tt
  end;;
  mret None.

Definition BeforeProcessPipeline (h : RedisHook) (ctx : Context)
    (cmds : list Cmder) : Go (Context * option error) :=
  '(ctx, span) ← Tracer_Start (redis_Tracer h) ctx "redis.pipeline"
      [ attribute.String "db.system" "redis";
        attribute.String "db.operation" "pipeline";
        attribute.Int "db.redis.num_cmd" (Z.of_nat (length cmds)) ];
  mret (context.WithValue ctx redisSpanKey (SpanValue span), None).

(** The loop of [AfterProcessPipeline], which stops at the first command
    whose error is neither nil nor [redis.Nil]. *)
Fixpoint first_failure (span : SpanRef) (cmds : list Cmder) : Go unit :=
  match cmds with
  | [] => mret tt
  | cmd :: rest =>
      match cmd_Err cmd with
      | Some err =>
          if negb (is_redis_Nil err) then
            Span_RecordError span err;;
            Span_SetStatus span codes.Error (Error err)
          else first_failure span rest
      | None => first_failure span rest
      end
  end.

Definition AfterProcessPipeline (h : RedisHook) (ctx : Context)
    (cmds : list Cmder) : Go (option error) :=
  match context.Value ctx redisSpanKey with
  | Some (SpanValue span) => defer (Span_End span) (first_failure span cmds)
  | _ => mret tt
  end;;
  mret None.

(** The hook interface of go-redis v9: three wrappers of the next function
    in the chain.  The function types follow [redis.DialHook],
    [redis.ProcessHook] and [redis.ProcessPipelineHook]; a command is
    passed by pointer, so the call hands it back. *)
Definition Conn := nat.
Definition DialHookFn : Type := Context -> string -> string -> Go (result Conn).
Definition ProcessHookFn : Type := Context -> Cmder -> Go (Cmder * option error).
Definition ProcessPipelineHookFn : Type :=
  Context -> list Cmder -> Go (list Cmder * option error).

Definition DialHook (h : RedisHook) (next : DialHookFn) : DialHookFn := next.

Definition ProcessHook (h : RedisHook) (next : ProcessHookFn) : ProcessHookFn :=
  next.

Definition ProcessPipelineHook (h : RedisHook) (next : ProcessPipelineHookFn)
  : ProcessPipelineHookFn := next.

(** *** The host's dispatch

    go-redis is outside the repository.  A v9 client wraps its own process
    function with the [ProcessHook] of every added hook, last added
    outermost.  A client that calls the before/after pair does so around the
    command: before, the command unless before failed, after; nothing
    recovers a panic between them. *)
Definition chain_ProcessHook (hs : list RedisHook) (base : ProcessHookFn)
  : ProcessHookFn :=
  fold_right (fun h next => ProcessHook h next) base hs.

Definition process_with_pair (h : RedisHook) (fn : ProcessHookFn)
    (ctx : Context) (cmd : Cmder) : Go (Cmder * option error) :=
  '(ctx, retErr) ← BeforeProcess h ctx cmd;
  '(cmd, retErr) ← match retErr with
                   | None => fn ctx cmd
                   | Some e => mret (cmd, Some e)
                   end;
  afterErr ← AfterProcess h ctx cmd;
  match afterErr with
  | Some e => mret (mkCmder (cmd_Name cmd) (cmd_String cmd) (Some e), Some e)
  | None => mret (cmd, retErr)
  end.

(* ================================================================== *)
(** ** example/grpc/main.go: the unary interceptor                     *)
(* ================================================================== *)

Record UnaryServerInfo : Type := mkUnaryServerInfo { FullMethod : string }.

Definition UnaryHandler : Type := Context -> any -> Go (any * option error).

(** [peer.FromContext] and [metadata.FromIncomingContext]; the [ok] results
    are discarded by the interceptor. *)
Definition peer_FromContext (ctx : Context) : option Peer :=
  match context.Value ctx peerKey with
  | Some (PeerValue p) => p
  | _ => None
  end.

Definition metadata_FromIncomingContext (ctx : Context)
  : list (string * list string) :=
  match context.Value ctx mdIncomingKey with
  | Some (MDValue md) => md
  | _ => []
  end.

(** [status.FromError(err)] then [Message()]: the status message of a gRPC
    status error, and [err.Error()] for any other error. *)
Definition status_Message (e : error) : string :=
  match e with
  | GrpcStatus _ msg => msg
  | _ => Error e
  end.

(** [for k, v := range md { if len(v) > 0 { span.SetAttributes(...) } }];
    [md] lists the entries of the map in the order the loop visits them. *)
Fixpoint record_metadata (span : SpanRef) (md : list (string * list string))
  : Go unit :=
  match md with
  | [] => mret tt
  | (k, v) :: rest =>
      match v with
      | v0 :: _ =>
          Span_SetAttributes span [attribute.String ("rpc.metadata." +:+ k) v0]
      | [] => mret tt
      end;;
      record_metadata span rest
  end.

Definition TracingInterceptor (tracer : Tracer) (ctx : Context) (req : any)
    (info : UnaryServerInfo) (handler : UnaryHandler)
  : Go (any * option error) :=
  let p := peer_FromContext ctx in
  let md := metadata_FromIncomingContext ctx in
  let spanName := "grpc." +:+ FullMethod info in
  p ← deref p;
  addr ← deref (peer_Addr p);
  '(ctx, span) ← Tracer_Start tracer ctx spanName
      [ attribute.String "rpc.system" "grpc";
        attribute.String "rpc.method" (FullMethod info);
        attribute.String "peer.address" addr ];
  defer (Span_End span)
    (record_metadata span md;;
     startTime ← time_Now;
     '(resp, err) ← handler ctx req;
     duration ← time_Since startTime;
     Span_SetAttributes span [("rpc.duration", DurationText duration)];;
     match err with
     | Some e =>
         Span_SetStatus span codes.Error (status_Message e);;
         Span_RecordError span e
     | None => Span_SetStatus span codes.Ok "success"
     end;;
     mret (resp, err)).

(* ================================================================== *)
(** ** example/grpc/main.go: the stream interceptor                    *)
(* ================================================================== *)

Record StreamServerInfo : Type := mkStreamServerInfo {
  stream_FullMethod : string;
  IsClientStream : bool;
  IsServerStream : bool
}.

Definition streamType (info : StreamServerInfo) : string :=
  if IsClientStream info && IsServerStream info then "bidirectional"
  else if IsClientStream info then "client"
  else if IsServerStream info then "server"
  else "unary".

Definition MD : Type := list (string * list string).

(** The interface [grpc.ServerStream]: a value is its six methods.
    [RecvMsg] fills the message it is given, so it hands it back. *)
Record ServerStream : Type := mkServerStream {
  ss_SetHeader : MD -> Go (option error);
  ss_SendHeader : MD -> Go (option error);
  ss_SetTrailer : MD -> Go unit;
  ss_Context : Context;
  ss_SendMsg : any -> Go (option error);
  ss_RecvMsg : any -> Go (any * option error)
}.

(** [wrappedServerStream]: the embedded stream and the context to answer. *)
Record wrappedServerStream : Type := mkWrapped {
  wrapped_ServerStream : ServerStream;
  wrapped_ctx : Context
}.

(** [func (w *wrappedServerStream) Context() context.Context] *)
Definition wrapped_Context (ws : wrappedServerStream) : Context := wrapped_ctx ws.

(** The wrapped stream as a [grpc.ServerStream]: [Context] is its own
    method, the five others are promoted from the embedded stream. *)
Definition as_ServerStream (ws : wrappedServerStream) : ServerStream :=
  mkServerStream
    (ss_SetHeader (wrapped_ServerStream ws))
    (ss_SendHeader (wrapped_ServerStream ws))
    (ss_SetTrailer (wrapped_ServerStream ws))
    (wrapped_Context ws)
    (ss_SendMsg (wrapped_ServerStream ws))
    (ss_RecvMsg (wrapped_ServerStream ws)).

Definition StreamHandler : Type := any -> ServerStream -> Go (option error).

Definition StreamTracingInterceptor (tracer : Tracer) (srv : any)
    (ss : ServerStream) (info : StreamServerInfo) (handler : StreamHandler)
  : Go (option error) :=
  let ctx := ss_Context ss in
  let p := peer_FromContext ctx in
  let md := metadata_FromIncomingContext ctx in
  let spanName := "grpc.stream." +:+ stream_FullMethod info in
  p ← deref p;
  addr ← deref (peer_Addr p);
  '(ctx, span) ← Tracer_Start tracer ctx spanName
      [ attribute.String "rpc.system" "grpc";
        attribute.String "rpc.method" (stream_FullMethod info);
        attribute.String "rpc.stream.type" (streamType info);
        attribute.String "peer.address" addr ];
  defer (Span_End span)
    (record_metadata span md;;
     let wrappedStream := mkWrapped ss ctx in
     startTime ← time_Now;
     err ← handler srv (as_ServerStream wrappedStream);
     duration ← time_Since startTime;
     Span_SetAttributes span [("rpc.duration", DurationText duration)];;
     match err with
     | Some e =>
         Span_SetStatus span codes.Error (status_Message e);;
         Span_RecordError span e
     | None => Span_SetStatus span codes.Ok "success"
     end;;
     mret err).

(* ================================================================== *)
(** ** example/http/main.go: the HTTP middleware                       *)
(* ================================================================== *)

(** The parts of [http.Request] the middleware reads: [r.Method],
    [r.URL.Path], [r.URL.String()] and [r.Context()]. *)
Record Request : Type := mkRequest {
  req_Method : string;
  req_URL_Path : string;
  req_URL_String : string;
  req_Context : Context
}.

Definition Request_WithContext (r : Request) (ctx : Context) : Request :=
  mkRequest (req_Method r) (req_URL_Path r) (req_URL_String r) ctx.

(** The [http.ResponseWriter] the server hands to the middleware, as a
    recorder of the [WriteHeader] and [Write] calls it receives. *)
Record Writer : Type := mkWriter {
  wr_codes : list Z;
  wr_bodies : list string
}.

Definition Writer_WriteHeader (w : Writer) (code : Z) : Writer :=
  mkWriter (wr_codes w ++ [code]) (wr_bodies w).

Definition Writer_Write (w : Writer) (body : string) : Writer :=
  mkWriter (wr_codes w) (wr_bodies w ++ [body]).

Definition StatusOK : Z := 200.

(** [responseWriter]: the embedded writer and the captured status code.
    The struct is reached through a pointer; a call that changes it hands
    the changed struct back. *)
Record responseWriter : Type := mkResponseWriter {
  rw_ResponseWriter : Writer;
  statusCode : Z
}.

Definition wrapResponseWriter (w : Writer) : responseWriter :=
  mkResponseWriter w StatusOK.

Definition WriteHeader (rw : responseWriter) (code : Z) : responseWriter :=
  mkResponseWriter (Writer_WriteHeader (rw_ResponseWriter rw) code) code.

(** [Write], promoted from the embedded writer. *)
Definition responseWriter_Write (rw : responseWriter) (body : string)
  : responseWriter :=
  mkResponseWriter (Writer_Write (rw_ResponseWriter rw) body) (statusCode rw).

(** [next.ServeHTTP(wrapped, r)] as the middleware calls it: the handler
    works on the wrapper and on the process. *)
Definition WrappedHandler : Type := responseWriter -> Request -> Go responseWriter.

Definition TraceMiddleware (tracer : Tracer) (next : WrappedHandler)
    (w : Writer) (r : Request) : Go Writer :=
  let ctx := req_Context r in
  let spanName := "http." +:+ req_Method r +:+ "." +:+ req_URL_Path r in
  '(ctx, span) ← Tracer_Start tracer ctx spanName
      [ attribute.String "http.method" (req_Method r);
        attribute.String "http.url" (req_URL_String r);
        attribute.String "http.path" (req_URL_Path r) ];
  defer (Span_End span)
    (startTime ← time_Now;
     let wrapped := wrapResponseWriter w in
     wrapped ← next wrapped (Request_WithContext r ctx);
     duration ← time_Since startTime;
     Span_SetAttributes span
       [ attribute.Int "http.status_code" (statusCode wrapped);
         ("http.duration", DurationText duration) ];;
     mret (rw_ResponseWriter wrapped)).

(* ================================================================== *)
(** ** Concrete inputs used by the examples below                      *)
(* ================================================================== *)

(** An SDK in which no constructor and no shutdown fails. *)
Definition env_ok : SdkEnv :=
  mkSdkEnv (fun _ => None) (fun _ => None) (fun _ => None) (fun _ => None).

Definition world0 : World := initial_World env_ok.

Definition redis_hook0 : RedisHook := mkRedisHook (mkTracer 0 "redis-client").
Definition gorm_hook0 : GormTracingHook := mkGormTracingHook (mkTracer 0 "mysql-client").

Definition get_ok : Cmder := mkCmder "get" "get test_key: test_value" None.
Definition get_missing : Cmder := mkCmder "get" "get test_key: redis: nil" (Some RedisNil).
Definition get_failed : Cmder :=
  mkCmder "get" "get test_key: connection refused" (Some (ErrorString "connection refused")).

(** A statement without a parsed schema, as for [db.Raw] or [db.Exec]. *)
Definition raw_db : DB := mkDB (mkStatement None context.Background "SELECT 1") None.

(** A query on a model whose table is [users]. *)
Definition users_db : DB :=
  mkDB (mkStatement (Some (mkSchema "users")) context.Background
          "SELECT * FROM users WHERE id = 1") None.

Definition not_found : error := ErrorString "not found".

(** Wrapped calls: a command that fails, one that panics, a query that
    fails, and a gRPC handler answering "not found". *)
Definition cmd_fails : ProcessHookFn := fun _ cmd =>
  mret (mkCmder (cmd_Name cmd) (cmd_String cmd) (Some not_found), Some not_found).

Definition cmd_panics : ProcessHookFn := fun _ _ => panic "connection pool closed".

Definition query_fails : DB -> Go DB := fun db =>
  mret (mkDB (db_Statement db) (Some not_found)).

Definition handler_not_found : UnaryHandler := fun _ _ =>
  mret (AnyNil, Some not_found).

Definition peer_ctx : Context :=
  context.WithValue context.Background peerKey
    (PeerValue (Some (mkPeer (Some "10.0.0.7:41000")))).

Definition uninitialized_provider : OTelProvider :=
  mkOTelProvider defaultOptions None (mkOnce false).

(** Two constructions in a row from start-up, with no options. *)
Definition first_run : outcome NewOTelProvider_result * World :=
  NewOTelProvider [] world0.

Definition second_run : outcome NewOTelProvider_result * World :=
  NewOTelProvider [] (snd first_run).

(** The tracer provider held by the provider a run returned. *)
Definition tracerProvider_of (run : outcome NewOTelProvider_result * World)
  : option nat :=
  match fst run with
  | Returns r => p ← res_provider r; tracerProvider p
  | Panics _ => None
  end.

(** A run that returned a provider and a nil error. *)
Definition succeeded (run : outcome NewOTelProvider_result * World) : bool :=
  match fst run with
  | Returns r =>
      match res_provider r, res_err r with
      | Some _, None => true
      | _, _ => false
      end
  | Panics _ => false
  end.

(** The status of span [sp] in a world. *)
Definition status_of (sp : SpanRef) (w : World) : option (codes.Code * string) :=
  span_status <$> spans w !! sp.

(** How often span [sp] was ended in a world. *)
Definition ended_of (sp : SpanRef) (w : World) : option nat :=
  span_ended <$> spans w !! sp.

(** The context and the world in which the unary interceptor calls the
    handler, for a caller at address [addr]. *)
Definition handler_ctx (ctx : Context) (w : World) : Context :=
  context.WithValue ctx currentSpanKey (SpanValue (length (spans w))).

Definition handler_world (ctx : Context) (info : UnaryServerInfo)
    (addr : string) (w : World) : World :=
  snd (record_metadata (length (spans w)) (metadata_FromIncomingContext ctx)
         (set_spans
            (spans w ++
             [new_Span ("grpc." +:+ FullMethod info)
                [ attribute.String "rpc.system" "grpc";
                  attribute.String "rpc.method" (FullMethod info);
                  attribute.String "peer.address" addr ]]) w)).

(** The before-hook of a successful [get], then the after-hook in the
    context the before-hook returned; the same for a [get] answered by
    [redis.Nil], and for a query whose [db.Error] stays nil. *)
Definition redis_after_before (cmd : Cmder) : World :=
  match BeforeProcess redis_hook0 context.Background cmd world0 with
  | (Returns (ctx, _), w1) => snd (AfterProcess redis_hook0 ctx cmd w1)
  | (Panics _, w1) => w1
  end.

Definition gorm_after_before (db : DB) : World :=
  match before gorm_hook0 db world0 with
  | (Returns db1, w1) => snd (after gorm_hook0 db1 w1)
  | (Panics _, w1) => w1
  end.

(** The context and the world in which the wrapped Redis command runs: the
    ones [BeforeProcess] leaves. *)
Definition pair_ctx (ctx : Context) (w : World) : Context :=
  context.WithValue
    (context.WithValue ctx currentSpanKey (SpanValue (length (spans w))))
    redisSpanKey (SpanValue (length (spans w))).

Definition pair_world (cmd : Cmder) (w : World) : World :=
  set_spans
    (spans w ++
     [new_Span ("redis." +:+ cmd_Name cmd)
        [ attribute.String "db.system" "redis";
          attribute.String "db.operation" (cmd_Name cmd);
          attribute.String "db.statement" (cmd_String cmd) ]]) w.

(** The [db] and the world in which GORM's own callback runs: the ones
    [before] leaves, for a statement whose schema is [sch]. *)
Definition callback_db (db : DB) (w : World) : DB :=
  mkDB (mkStatement (stmt_Schema (db_Statement db))
          (context.WithValue
             (context.WithValue (stmt_Context (db_Statement db)) currentSpanKey
                (SpanValue (length (spans w))))
             dbSpanKey (SpanValue (length (spans w))))
          (stmt_SQL (db_Statement db)))
       (db_Error db).

Definition callback_world (db : DB) (sch : Schema) (w : World) : World :=
  set_spans
    (spans w ++
     [new_Span ("gorm." +:+ Table sch)
        [ attribute.String "db.system" "mysql";
          attribute.String "db.operation" (Table sch);
          attribute.String "db.statement" (stmt_SQL (db_Statement db)) ]]) w.

(** One end for a call that returned, none for a call that panicked. *)
Definition ends_after {A : Type} (r : outcome A) : nat :=
  match r with
  | Returns _ => 1%nat
  | Panics _ => 0%nat
  end.

(* ================================================================== *)
(** ** Vocabulary for the further properties                           *)
(* ================================================================== *)

(** The protocols [createExporter] has a case for. *)
Definition supported (p : ExportProtocol) : bool :=
  String.eqb p ProtocolGRPC || String.eqb p ProtocolHTTP || String.eqb p ProtocolJSON.



(** The provider [NewOTelProvider] allocates before it runs the guard. *)
Definition fresh_provider (o : options) : OTelProvider :=
  mkOTelProvider o None (mkOnce false).

(** The resource attributes and the tracer-provider configuration that
    settings [o] ask for, with the exporter at position [exp]. *)
Definition resource_of (o : options) : Resource :=
  [ ("service.name", StringValue (serviceName o));
    ("service.version", StringValue (serviceVersion o));
    ("environment", StringValue (environment o)) ].

Definition config_of (o : options) (exp : nat) : TracerProviderConfig :=
  mkTracerProviderConfig exp (maxExportBatchSize o) (batchTimeout o)
    (maxQueueSize o) (exportTimeout o) (resource_of o)
    (ParentBased (TraceIDRatioBased (samplingRatio o))).

(** The world a successful construction leaves: one exporter [x] and one
    tracer provider more, the latter installed as the global one together
    with the two propagators. *)
Definition constructed_World (o : options) (x : Exporter) (w : World) : World :=
  set_globalPropagator [TraceContext; Baggage]
    (set_globalTracerProvider (Some (length (tracerProviders w)))
       (set_tracerProviders
          (tracerProviders w ++ [config_of o (length (exporters w))])
          (set_exporters (exporters w ++ [x]) w))).

(** The endpoint [createExporter] settles on. *)
Definition effective_endpoint (o : options) : string :=
  if String.eqb (endpoint o) "" then "localhost:4317" else endpoint o.



(** An SDK whose shutdown reports an error. *)
Definition env_shutdown_fails : SdkEnv :=
  mkSdkEnv (fun _ => None) (fun _ => None) (fun _ => None)
    (fun _ => Some (ErrorString "context deadline exceeded")).

(** The provider and the clean-up closure a run returned. *)
Definition provider_of (run : outcome NewOTelProvider_result * World)
  : option OTelProvider :=
  match fst run with
  | Returns r => res_provider r
  | Panics _ => None
  end.

Definition cleanup_of (run : outcome NewOTelProvider_result * World)
  : option (Go unit) :=
  match fst run with
  | Returns r => res_cleanup r
  | Panics _ => None
  end.

(** The error a run returned, as text. *)
Definition error_text_of (run : outcome NewOTelProvider_result * World)
  : option string :=
  match fst run with
  | Returns r => Error <$> res_err r
  | Panics _ => None
  end.

(** Everything of the process that is not an exporter, a tracer provider
    or one of the SDK's two globals. *)
Definition same_outside_construction (w w' : World) : Prop :=
  sdk w' = sdk w /\ clock w' = clock w /\ spans w' = spans w /\
  shutdowns w' = shutdowns w /\ Provider w' = Provider w /\
  tracerRegistry w' = tracerRegistry w /\ logged w' = logged w.

(** Settings for HTTP/JSON export with an empty endpoint and no timeout. *)
Definition json_options : options :=
  default defaultOptions
    (applyOptions [WithExportProtocol ProtocolJSON; WithEndpoint ""; WithTimeout 0]
       defaultOptions).

Definition orders_tracer : Tracer := mkTracer 0 "orders".
Definition billing_tracer : Tracer := mkTracer 0 "billing".

(** The log line [RegisterTracer] writes for a name that is taken. *)
Definition already_registered (name : string) : string :=
  "Tracer " +:+ name +:+ " already registered".

(** The process after the first construction, with the package variable
    [Provider] assigned by the application to the provider it got. *)
Definition world_with_Provider : World :=
  set_Provider (provider_of first_run) (snd first_run).

(** A command that did not fail in the hook's eyes: its error is nil or
    the sentinel [redis.Nil]. *)
Definition quiet (cmd : Cmder) : Prop :=
  cmd_Err cmd = None \/ cmd_Err cmd = Some RedisNil.

(** The failure an after-hook reports for a command, if any. *)
Definition failure_of (cmd : Cmder) : option error :=
  match cmd_Err cmd with
  | Some e => if is_redis_Nil e then None else Some e
  | None => None
  end.

(** A span after an after-hook has run on it: ended once more and, when the
    call failed with [e], carrying [e] as one more recorded error and as
    its Error status; name and attributes as before. *)
Definition closed_Span (s : Span) (failure : option error) : Span :=
  mkSpan (span_name s) (span_attributes s)
    match failure with
    | Some e => (codes.Error, Error e)
    | None => span_status s
    end
    match failure with
    | Some e => span_errors s ++ [e]
    | None => span_errors s
    end
    (S (span_ended s)).

(** A context that binds no span under key [k]. *)
Definition no_span_under (k : ctxKey) (ctx : Context) : Prop :=
  forall sp, context.Value ctx k <> Some (SpanValue sp).

Definition set_failed : Cmder :=
  mkCmder "set" "set k v: READONLY" (Some (ErrorString "READONLY")).

Definition del_failed : Cmder :=
  mkCmder "del" "del k: timeout" (Some (ErrorString "timeout")).

(** The name of a processor as it appears in callback names. *)
Definition processor_suffix (k : Processor) : string :=
  match k with
  | Create => "create" | Query => "query" | Delete => "delete"
  | Update => "update" | Row => "row" | Raw => "raw"
  end.

(** The attributes of a pipeline span for [n] commands. *)
Definition pipeline_attributes (n : nat) : list KeyValue :=
  [ ("db.system", StringValue "redis");
    ("db.operation", StringValue "pipeline");
    ("db.redis.num_cmd", IntValue (Z.of_nat n)) ].

(** An operation's own callback that runs a query successfully. *)
Definition query_ok : DB -> Go DB := fun db => mret db.

(** The attributes the interceptors attach for the incoming metadata: for
    each entry with at least one value, its first value. *)
Definition metadata_attributes (md : list (string * list string)) : list KeyValue :=
  flat_map (fun kv => match snd kv with
                      | v0 :: _ => [attribute.String ("rpc.metadata." +:+ fst kv) v0]
                      | [] => []
                      end) md.

(** The span of a unary call as the interceptor has it when it calls the
    handler, and as it leaves it: [outcome] is [None] when the handler
    panicked and the handler's duration and error otherwise. *)
Definition unary_attributes (ctx : Context) (info : UnaryServerInfo)
    (addr : string) : list KeyValue :=
  [ ("rpc.system", StringValue "grpc");
    ("rpc.method", StringValue (FullMethod info));
    ("peer.address", StringValue addr) ]
  ++ metadata_attributes (metadata_FromIncomingContext ctx).

Definition unary_Span (ctx : Context) (info : UnaryServerInfo) (addr : string)
    (outcome : option (Duration * option error)) : Span :=
  match outcome with
  | None =>
      mkSpan ("grpc." +:+ FullMethod info) (unary_attributes ctx info addr)
        (codes.Unset, "") [] 1
  | Some (d, None) =>
      mkSpan ("grpc." +:+ FullMethod info)
        (unary_attributes ctx info addr ++ [("rpc.duration", DurationText d)])
        (codes.Ok, "success") [] 1
  | Some (d, Some e) =>
      mkSpan ("grpc." +:+ FullMethod info)
        (unary_attributes ctx info addr ++ [("rpc.duration", DurationText d)])
        (codes.Error, status_Message e) [e] 1
  end.

(** A context with a peer, an address and two metadata entries, one of them
    without values. *)
Definition md_ctx : Context :=
  context.WithValue peer_ctx mdIncomingKey
    (MDValue [("authorization", ["Bearer t"; "Bearer u"]); ("x-empty", [])]).

(** Handlers: one that takes 7 ms and fails with a gRPC status, one that
    panics. *)
Definition handler_status_error : UnaryHandler := fun _ _ w =>
  (Returns (AnyNil, Some (GrpcStatus "NotFound" "no such user")),
   mkWorld (sdk w) (clock w + 7000000) (spans w) (exporters w)
     (tracerProviders w) (shutdowns w) (globalTracerProvider w)
     (globalPropagator w) (Provider w) (tracerRegistry w) (logged w)).

Definition handler_panics : UnaryHandler := fun _ _ => panic "index out of range".

(** *** The stream interceptor *)

(** The stream the handler is given, and the span of a stream call as the
    interceptor leaves it ([outcome] as for [unary_Span]). *)
Definition handler_stream (ss : ServerStream) (w : World) : ServerStream :=
  as_ServerStream (mkWrapped ss (handler_ctx (ss_Context ss) w)).

Definition stream_attributes (ss : ServerStream) (info : StreamServerInfo)
    (addr : string) : list KeyValue :=
  [ ("rpc.system", StringValue "grpc");
    ("rpc.method", StringValue (stream_FullMethod info));
    ("rpc.stream.type", StringValue (streamType info));
    ("peer.address", StringValue addr) ]
  ++ metadata_attributes (metadata_FromIncomingContext (ss_Context ss)).

Definition stream_Span (ss : ServerStream) (info : StreamServerInfo)
    (addr : string) (outcome : option (Duration * option error)) : Span :=
  match outcome with
  | None =>
      mkSpan ("grpc.stream." +:+ stream_FullMethod info)
        (stream_attributes ss info addr) (codes.Unset, "") [] 1
  | Some (d, None) =>
      mkSpan ("grpc.stream." +:+ stream_FullMethod info)
        (stream_attributes ss info addr ++ [("rpc.duration", DurationText d)])
        (codes.Ok, "success") [] 1
  | Some (d, Some e) =>
      mkSpan ("grpc.stream." +:+ stream_FullMethod info)
        (stream_attributes ss info addr ++ [("rpc.duration", DurationText d)])
        (codes.Error, status_Message e) [e] 1
  end.

(** The world in which the stream handler runs. *)
Definition stream_world (ss : ServerStream) (info : StreamServerInfo)
    (addr : string) (w : World) : World :=
  set_spans (spans w ++ [mkSpan ("grpc.stream." +:+ stream_FullMethod info)
                           (stream_attributes ss info addr)
                           (codes.Unset, "") [] 0]) w.

(** A client stream over a connection with a peer, and a handler that
    receives one message and fails. *)
Definition upload_stream : ServerStream :=
  mkServerStream (fun _ => mret None) (fun _ => mret None) (fun _ => mret tt)
    peer_ctx (fun _ => mret None) (fun m => mret (m, None)).

Definition upload_info : StreamServerInfo :=
  mkStreamServerInfo "/files.Files/Upload" true false.

Definition upload_handler : StreamHandler := fun _ ss =>
  r ← ss_RecvMsg ss AnyNil;
  mret (Some (ErrorString "quota exceeded")).

(** *** The HTTP middleware *)

(** The request and the world the handler is given, and the span the
    middleware leaves: [outcome] is [None] when the handler panicked, and
    the captured status code and the duration otherwise. *)
Definition http_attributes (r : Request) : list KeyValue :=
  [ ("http.method", StringValue (req_Method r));
    ("http.url", StringValue (req_URL_String r));
    ("http.path", StringValue (req_URL_Path r)) ].

Definition http_request (r : Request) (w : World) : Request :=
  Request_WithContext r (handler_ctx (req_Context r) w).

Definition http_world (r : Request) (w : World) : World :=
  set_spans (spans w ++ [new_Span ("http." +:+ req_Method r +:+ "." +:+ req_URL_Path r)
                           (http_attributes r)]) w.

Definition http_Span (r : Request) (outcome : option (Z * Duration)) : Span :=
  mkSpan ("http." +:+ req_Method r +:+ "." +:+ req_URL_Path r)
    match outcome with
    | Some (code, d) =>
        http_attributes r
        ++ [("http.status_code", IntValue code); ("http.duration", DurationText d)]
    | None => http_attributes r
    end
    (codes.Unset, "") [] 1.

(** A fresh writer, a request, and a handler that answers 500, then tries
    to answer 404, then writes a body. *)
Definition writer0 : Writer := mkWriter [] [].

Definition get_user : Request :=
  mkRequest "GET" "/user/7" "/user/7?verbose=1" context.Background.

Definition failing_handler : WrappedHandler := fun rw _ =>
  mret (responseWriter_Write (WriteHeader (WriteHeader rw 500) 404) "oops").

Definition panicking_handler : WrappedHandler := fun _ _ => panic "nil map".

(* ================================================================== *)
(** * Properties                                                       *)
(* ================================================================== *)

(** ** Running a bind *)

Lemma Go_bind_Returns {A B : Type} (m : Go A) (f : A -> Go B) w a w' :
  m w = (Returns a, w') -> (m ≫= f) w = f a w'.
Proof. intros H. unfold mbind, Go_bind. rewrite H. reflexivity. Qed.

Lemma Go_bind_Panics {A B : Type} (m : Go A) (f : A -> Go B) w msg w' :
  m w = (Panics msg, w') -> (m ≫= f) w = (Panics msg, w').
Proof. intros H. unfold mbind, Go_bind. rewrite H. reflexivity. Qed.

(** ** The configuration builder *)

(** A [With...] option writes its argument to the field it names and leaves
    every other field as it was. *)
Lemma to_Option_sets (c : Call) (o : options) :
  exists opt, to_Option c = Some opt /\
    forall f, get_field f (opt o) =
              if Field_eqb (call_field c) f then call_value c else get_field f o.
Proof.
  destruct c; (eexists; split; [reflexivity |]); intros f; destruct f; reflexivity.
Qed.

Lemma applyOptions_last_set (cs : list Call) :
  forall o0, exists o,
    applyOptions (map to_Option cs) o0 = Some o /\
    forall f, get_field f o = default (get_field f o0) (last_set f cs).
Proof.
  induction cs as [| c rest IH]; intros o0.
  - exists o0. split; [reflexivity | intros f; reflexivity].
  - destruct (to_Option_sets c o0) as (opt & Hopt & Hset).
    destruct (IH (opt o0)) as (o & Hrun & Hget).
    exists o. split.
    + cbn [map applyOptions]. rewrite Hopt. exact Hrun.
    + intros f. rewrite Hget, Hset. cbn [last_set].
      destruct (last_set f rest) as [v |]; [reflexivity |].
      destruct (Field_eqb (call_field c) f); reflexivity.
Qed.

(** C8. Applying any sequence of [With...] options, in order, to the default
    settings completes, and every field of the resulting settings holds the
    argument of the last option in the sequence that names that field (the
    default when no option names it). *)
Theorem last_option_wins (cs : list Call) :
  exists o,
    applyOptions (map to_Option cs) defaultOptions = Some o /\
    forall f, get_field f o = default (get_field f defaultOptions) (last_set f cs).
Proof. apply applyOptions_last_set. Qed.

(** C9. With no option the builder yields the defaults: service name
    "unknown-service", protocol grpc, endpoint "localhost:4317", insecure,
    sampling ratio 1.0, batch timeout 5 s, export timeout 30 s, at most 512
    spans per export batch and 2048 queued spans. *)
Theorem empty_options_give_defaults :
  exists o,
    applyOptions [] defaultOptions = Some o /\
    serviceName o = "unknown-service" /\
    protocol o = ProtocolGRPC /\ ProtocolGRPC = "grpc" /\
    endpoint o = "localhost:4317" /\
    insecure o = true /\
    samplingRatio o = 1.0%float /\
    batchTimeout o = 5 * Second /\
    exportTimeout o = 30 * Second /\
    Second = 1000000000 /\
    maxExportBatchSize o = 512 /\
    maxQueueSize o = 2048.
Proof. exists defaultOptions. repeat split. Qed.

(** ** Shutdown *)

(** C10. [Shutdown] on a provider whose tracer provider was never set
    returns a nil error and changes nothing. *)
Theorem Shutdown_uninitialized (p : OTelProvider) (ctx : Context) (w : World) :
  tracerProvider p = None ->
  Shutdown p ctx w = (Returns None, w).
Proof. intros Hnil. unfold Shutdown. rewrite Hnil. reflexivity. Qed.

Lemma Shutdown_uninitialized_witness :
  tracerProvider uninitialized_provider = None /\
  Shutdown uninitialized_provider context.Background world0
    = (Returns None, world0).
Proof.
  split; [reflexivity |].
  apply (Shutdown_uninitialized uninitialized_provider context.Background world0).
  reflexivity.
Defined.

(** ** The go-redis v9 hook interface *)

Lemma chain_ProcessHook_id (hs : list RedisHook) (base : ProcessHookFn) :
  chain_ProcessHook hs base = base.
Proof.
  induction hs as [| h hs IH]; [reflexivity |].
  unfold chain_ProcessHook in *. cbn [fold_right]. exact IH.
Qed.

(** C6. [DialHook], [ProcessHook] and [ProcessPipelineHook] hand back the
    function they are given.  A client that wraps its process function with
    the [ProcessHook] of any number of these hooks therefore runs its own
    function: the outcome and the span store are those of the unhooked
    call. *)
Theorem v9_hooks_return_next (h : RedisHook) :
  (forall next, DialHook h next = next) /\
  (forall next, ProcessHook h next = next) /\
  (forall next, ProcessPipelineHook h next = next) /\
  (forall hs base ctx cmd w,
      chain_ProcessHook (h :: hs) base ctx cmd w = base ctx cmd w).
Proof.
  repeat split.
  intros hs base ctx cmd w. rewrite chain_ProcessHook_id. reflexivity.
Qed.

(** ** The GORM before callback on a statement without schema *)

Example before_raw_db :
  before gorm_hook0 raw_db world0 = (Panics nil_dereference, world0).
Proof. reflexivity. Qed.

(** C7 (the code departs from the claim). With [db.Statement.Schema] nil the
    before callback panics on the nil pointer while building the span
    attributes: it returns nothing and no span is started. *)
Theorem before_without_schema_panics (h : GormTracingHook) (ctx : Context)
    (sql : string) (err : option error) (w : World) :
  before h (mkDB (mkStatement None ctx sql) err) w = (Panics nil_dereference, w).
Proof.
  unfold before. cbn [db_Statement stmt_Schema deref].
  apply Go_bind_Panics. reflexivity.
Qed.

(** ** The registry's fallback *)

Lemma GetTracer_nil_Provider (name : string) (w : World) :
  tracerRegistry w !! name = None ->
  Provider w = None ->
  GetTracer name w = (Panics nil_dereference, w).
Proof.
  intros Hreg Hnil. unfold GetTracer, get_World, mbind, Go_bind.
  rewrite Hreg, Hnil. reflexivity.
Qed.

(** ** Provider construction *)

Lemma exporter_New_spec tr eopts w :
  (exists e, exporter_New tr eopts w = (Returns (Failure e), w)) \/
  exporter_New tr eopts w =
    (Returns (Success (length (exporters w))),
     set_exporters (exporters w ++ [mkExporter tr eopts]) w).
Proof.
  unfold exporter_New.
  destruct tr; [destruct (grpc_New_err _ _) | destruct (http_New_err _ _)];
    eauto.
Qed.

Lemma createExporter_spec p w :
  (exists e, createExporter p w = (Returns (Failure e), w)) \/
  (exists x, createExporter p w =
    (Returns (Success (length (exporters w))),
     set_exporters (exporters w ++ [x]) w)).
Proof.
  unfold createExporter.
  destruct (String.eqb (protocol (opts p)) ProtocolGRPC).
  - match goal with |- context [exporter_New ?tr ?eo w] =>
      destruct (exporter_New_spec tr eo w) as [[e He] | He]; rewrite He; eauto
    end.
  - destruct (String.eqb (protocol (opts p)) ProtocolHTTP
              || String.eqb (protocol (opts p)) ProtocolJSON).
    + match goal with |- context [exporter_New ?tr ?eo w] =>
        destruct (exporter_New_spec tr eo w) as [[e He] | He]; rewrite He; eauto
      end.
    + left. eexists. reflexivity.
Qed.

(** The construction closure either reports an error, leaving the captured
    tracer provider as it was, or creates exactly one exporter and one
    tracer provider and installs the latter as the global one. *)
Lemma setup_spec p c w :
  (exists e w', setup p c w = (Returns (fst c, Some e), w') /\
     Provider w' = Provider w /\ tracerRegistry w' = tracerRegistry w) \/
  (exists w', setup p c w = (Returns (Some (length (tracerProviders w)), None), w') /\
     length (exporters w') = S (length (exporters w)) /\
     length (tracerProviders w') = S (length (tracerProviders w)) /\
     globalTracerProvider w' = Some (length (tracerProviders w)) /\
     Provider w' = Provider w /\ tracerRegistry w' = tracerRegistry w).
Proof.
  unfold setup, mbind, Go_bind.
  destruct (createExporter_spec p w) as [[e He] | [x He]]; rewrite He.
  - left. eauto.
  - unfold createResource, resource_New.
    cbn [sdk set_exporters].
    destruct (resource_New_err _ _) as [e |].
    + left. do 2 eexists. split; [reflexivity |]. split; reflexivity.
    + right. eexists. split; [reflexivity |].
      cbn. rewrite length_app. cbn. rewrite length_app. cbn.
      repeat split; lia.
Qed.

Lemma NewOTelProvider_spec os w :
  (applyOptions os defaultOptions = None /\
   NewOTelProvider os w = (Panics nil_dereference, w)) \/
  (exists e w', NewOTelProvider os w = (Returns (mkResult None None (Some e)), w') /\
     Provider w' = Provider w /\ tracerRegistry w' = tracerRegistry w) \/
  (exists o cleanup w',
     applyOptions os defaultOptions = Some o /\
     NewOTelProvider os w =
       (Returns (mkResult
          (Some (mkOTelProvider o (Some (length (tracerProviders w))) (mkOnce true)))
          (Some cleanup) None), w') /\
     length (exporters w') = S (length (exporters w)) /\
     length (tracerProviders w') = S (length (tracerProviders w)) /\
     globalTracerProvider w' = Some (length (tracerProviders w)) /\
     Provider w' = Provider w /\ tracerRegistry w' = tracerRegistry w).
Proof.
  unfold NewOTelProvider.
  destruct (applyOptions os defaultOptions) as [o |]; [right | left; split; reflexivity].
  unfold Once_Do. cbn [once done tracerProvider].
  destruct (setup_spec (mkOTelProvider o None (mkOnce false)) (None, None) w)
    as [(e & w' & Hs & HP & HR) | (w' & Hs & Hrest)].
  - left. do 2 eexists. split; [| split; eassumption].
    erewrite Go_bind_Returns
      by (erewrite Go_bind_Returns by exact Hs; reflexivity).
    reflexivity.
  - right. do 3 eexists. split; [reflexivity |]. split; [| exact Hrest].
    erewrite Go_bind_Returns
      by (erewrite Go_bind_Returns by exact Hs; reflexivity).
    reflexivity.
Qed.

(** C2 (the code departs from the claim). In a process that has built its
    provider with [NewOTelProvider], [GetTracer] of a name that was never
    registered panics on the nil package variable [Provider]: no fallback
    tracer is returned. *)
Theorem GetTracer_unregistered_panics (env : SdkEnv) (os : list Option)
    (name : string) :
  let w1 := snd (NewOTelProvider os (initial_World env)) in
  GetTracer name w1 = (Panics nil_dereference, w1).
Proof.
  intros w1. subst w1.
  assert (HP : Provider (snd (NewOTelProvider os (initial_World env))) = None /\
               tracerRegistry (snd (NewOTelProvider os (initial_World env))) = ∅).
  { destruct (NewOTelProvider_spec os (initial_World env))
      as [[_ H] | [(e & w' & H & HP & HR) | (o & c & w' & _ & H & _ & _ & _ & HP & HR)]];
      rewrite H; cbn [snd]; [split; reflexivity | |]; rewrite HP, HR; split; reflexivity. }
  destruct HP as [HP HR].
  apply GetTracer_nil_Provider; [| exact HP].
  rewrite HR. apply lookup_empty.
Qed.

(** C1 (as the code has it). Each call of [NewOTelProvider] allocates a
    provider with a run-once guard of its own and runs the construction
    under it: of two successful calls in a row with the same options, each
    creates one exporter and one tracer provider, and the second provider
    holds a tracer provider other than the first one's. *)
Theorem NewOTelProvider_constructs_each_time (os : list Option) (w : World) :
  succeeded (NewOTelProvider os w) = true ->
  succeeded (NewOTelProvider os (snd (NewOTelProvider os w))) = true ->
  tracerProvider_of (NewOTelProvider os w) = Some (length (tracerProviders w)) /\
  tracerProvider_of (NewOTelProvider os (snd (NewOTelProvider os w)))
    = Some (S (length (tracerProviders w))) /\
  length (exporters (snd (NewOTelProvider os w))) = S (length (exporters w)) /\
  length (exporters (snd (NewOTelProvider os (snd (NewOTelProvider os w)))))
    = S (S (length (exporters w))).
Proof.
  unfold succeeded, tracerProvider_of.
  destruct (NewOTelProvider_spec os w)
    as [[_ H] | [(e & w1 & H & _) | (o & c & w1 & _ & H & He & Ht & _)]];
    rewrite H; cbn [fst snd res_provider res_err]; try discriminate.
  intros _.
  destruct (NewOTelProvider_spec os w1)
    as [[_ H'] | [(e & w2 & H' & _) | (o' & c' & w2 & _ & H' & He' & Ht' & _)]];
    rewrite H'; cbn [fst snd res_provider res_err]; try discriminate.
  intros _. cbn. rewrite Ht, He', He. repeat split.
Qed.

Lemma NewOTelProvider_constructs_each_time_witness :
  succeeded first_run = true /\ succeeded second_run = true /\
  tracerProvider_of first_run = Some 0%nat /\
  tracerProvider_of second_run = Some 1%nat /\
  length (exporters (snd first_run)) = 1%nat /\
  length (exporters (snd second_run)) = 2%nat.
Proof.
  assert (H1 : succeeded (NewOTelProvider [] world0) = true) by reflexivity.
  assert (H2 : succeeded (NewOTelProvider [] (snd (NewOTelProvider [] world0))) = true)
    by reflexivity.
  destruct (NewOTelProvider_constructs_each_time [] world0 H1 H2)
    as (T1 & T2 & X1 & X2).
  repeat split; assumption.
Defined.

(** C1 counterexample. From start-up, with no options and an SDK that never
    fails, the second call returns another tracer provider than the first
    and leaves two exporters behind. *)
Lemma NewOTelProvider_second_call_constructs_again :
  succeeded first_run = true /\ succeeded second_run = true /\
  tracerProvider_of second_run <> tracerProvider_of first_run /\
  length (exporters (snd first_run)) = 1%nat /\
  length (exporters (snd second_run)) = 2%nat.
Proof. vm_compute. repeat split; try reflexivity. discriminate. Qed.

(** ** The status an after-hook leaves on the span *)

Ltac run_span_calls :=
  unfold defer, Span_End, Span_RecordError, Span_SetStatus, Span_SetAttributes,
    update_Span, modify_World, mbind, Go_bind, mret, Go_ret;
  cbn [fst snd spans set_spans].

(** C3 (as the code has it). When the span of the call is found in the
    context: if the wrapped call left an error (for Redis, one other than
    [redis.Nil]) the after-hook sets the span's status to Error with the
    error's message text; if it succeeded (or Redis answered [redis.Nil])
    the after-hook leaves the status as it was and does not set Ok.  This
    holds for [RedisHook.AfterProcess] and for [GormTracingHook.after]. *)
Theorem after_hook_status :
  (forall h ctx cmd w span s,
      context.Value ctx redisSpanKey = Some (SpanValue span) ->
      spans w !! span = Some s ->
      fst (AfterProcess h ctx cmd w) = Returns None /\
      status_of span (snd (AfterProcess h ctx cmd w)) =
        Some match cmd_Err cmd with
             | Some e => if is_redis_Nil e then span_status s
                         else (codes.Error, Error e)
             | None => span_status s
             end) /\
  (forall h db w span s,
      context.Value (stmt_Context (db_Statement db)) dbSpanKey
        = Some (SpanValue span) ->
      spans w !! span = Some s ->
      fst (after h db w) = Returns tt /\
      status_of span (snd (after h db w)) =
        Some match db_Error db with
             | Some e => (codes.Error, Error e)
             | None => span_status s
             end).
Proof.
  split.
  - intros h ctx cmd w span s Hctx Hs.
    unfold AfterProcess, status_of. rewrite Hctx.
    destruct (cmd_Err cmd) as [e |]; [destruct (is_redis_Nil e) |];
      cbn [negb]; run_span_calls; rewrite !list_lookup_alter_eq, Hs;
      split; reflexivity.
  - intros h db w span s Hctx Hs.
    unfold after, status_of. rewrite Hctx.
    destruct (db_Error db) as [e |];
      run_span_calls; rewrite !list_lookup_alter_eq, Hs; split; reflexivity.
Qed.

Lemma after_hook_status_witness :
  status_of 0 (snd (AfterProcess redis_hook0
                      (context.WithValue context.Background redisSpanKey (SpanValue 0%nat))
                      get_failed
                      (set_spans [new_Span "redis.get" []] world0)))
    = Some (codes.Error, "connection refused") /\
  status_of 0 (snd (after gorm_hook0
                      (mkDB (mkStatement None
                               (context.WithValue context.Background dbSpanKey (SpanValue 0%nat))
                               "SELECT 1") (Some not_found))
                      (set_spans [new_Span "gorm" []] world0)))
    = Some (codes.Error, "not found").
Proof.
  destruct after_hook_status as [Hredis Hgorm].
  split.
  - apply (Hredis redis_hook0
             (context.WithValue context.Background redisSpanKey (SpanValue 0%nat))
             get_failed (set_spans [new_Span "redis.get" []] world0) 0%nat
             (new_Span "redis.get" [])); reflexivity.
  - apply (Hgorm gorm_hook0
             (mkDB (mkStatement None
                      (context.WithValue context.Background dbSpanKey (SpanValue 0%nat))
                      "SELECT 1") (Some not_found))
             (set_spans [new_Span "gorm" []] world0) 0%nat
             (new_Span "gorm" [])); reflexivity.
Defined.

(** C3 counterexample. After a successful [get], after a [get] answered by
    [redis.Nil] (a non-nil error), and after a successful query, the span's
    status is still unset: not Ok in the first and third case, not Error in
    the second. *)
Lemma after_hook_leaves_status_unset :
  status_of 0 (redis_after_before get_ok) = Some (codes.Unset, "") /\
  status_of 0 (redis_after_before get_missing) = Some (codes.Unset, "") /\
  status_of 0 (gorm_after_before users_db) = Some (codes.Unset, "").
Proof. repeat split. Qed.

(** ** The unary gRPC interceptor *)

Lemma record_metadata_Returns span md w :
  fst (record_metadata span md w) = Returns tt.
Proof.
  revert w. induction md as [| [k v] rest IH]; intros w; [reflexivity |].
  cbn [record_metadata]. destruct v as [| v0 vs]; run_span_calls; apply IH.
Qed.

(** C5. Whenever the interceptor reaches the wrapped handler (the caller's
    peer and address are in the context) and the handler returns a response
    and an error, the interceptor returns that same response and that same
    error. *)
Theorem TracingInterceptor_returns_handler_result
    (tracer : Tracer) (ctx : Context) (req : any) (info : UnaryServerInfo)
    (handler : UnaryHandler) (w : World) (p : Peer) (addr : string)
    (resp : any) (e : error) (w' : World) :
  peer_FromContext ctx = Some p ->
  peer_Addr p = Some addr ->
  handler (handler_ctx ctx w) req (handler_world ctx info addr w)
    = (Returns (resp, Some e), w') ->
  fst (TracingInterceptor tracer ctx req info handler w)
    = Returns (resp, Some e).
Proof.
  intros Hpeer Haddr Hcall.
  unfold TracingInterceptor. rewrite Hpeer. cbn [deref].
  unfold mbind at 1, Go_bind at 1, mret at 1, Go_ret at 1.
  rewrite Haddr. cbn [deref].
  unfold mbind at 1, Go_bind at 1, mret at 1, Go_ret at 1.
  unfold mbind at 1, Go_bind at 1, Tracer_Start.
  unfold defer.
  unfold handler_ctx, handler_world in Hcall.
  match type of Hcall with
  | context [record_metadata ?s ?md ?v] =>
      pose proof (record_metadata_Returns s md v) as Hmd;
      destruct (record_metadata s md v) as [r wmd] eqn:Emd
  end.
  cbn [fst snd] in Hmd, Hcall. subst r.
  unfold mbind at 1, Go_bind at 1. rewrite Emd.
  unfold mbind at 1, Go_bind at 1, time_Now.
  unfold mbind at 1, Go_bind at 1. rewrite Hcall.
  reflexivity.
Qed.

Lemma TracingInterceptor_returns_handler_result_witness :
  fst (TracingInterceptor (mkTracer 0 "grpc-server") peer_ctx (AnyString "id-7")
         (mkUnaryServerInfo "/users.Users/Get") handler_not_found world0)
    = Returns (AnyNil, Some not_found).
Proof.
  apply (TracingInterceptor_returns_handler_result (mkTracer 0 "grpc-server")
           peer_ctx (AnyString "id-7") (mkUnaryServerInfo "/users.Users/Get")
           handler_not_found world0 (mkPeer (Some "10.0.0.7:41000"))
           "10.0.0.7:41000" AnyNil not_found
           (handler_world peer_ctx (mkUnaryServerInfo "/users.Users/Get")
              "10.0.0.7:41000" world0));
    reflexivity.
Defined.

(** ** One span per before/after pair *)

Lemma alter_middle {A : Type} (f : A -> A) (l1 : list A) (x : A) (l2 : list A) :
  alter f (length l1) (l1 ++ x :: l2) = l1 ++ f x :: l2.
Proof.
  rewrite alter_app_r_alt by lia. rewrite Nat.sub_diag. reflexivity.
Qed.

Lemma BeforeProcess_run h ctx cmd w :
  BeforeProcess h ctx cmd w = (Returns (pair_ctx ctx w, None), pair_world cmd w).
Proof. reflexivity. Qed.

Lemma before_run h db sch w :
  stmt_Schema (db_Statement db) = Some sch ->
  before h db w = (Returns (callback_db db w), callback_world db sch w).
Proof. intros Hsch. unfold before, callback_db. rewrite Hsch. reflexivity. Qed.

Lemma spans_pair_world cmd w extra :
  spans (pair_world cmd w) ++ extra
  = spans w ++ new_Span ("redis." +:+ cmd_Name cmd)
        [ attribute.String "db.system" "redis";
          attribute.String "db.operation" (cmd_Name cmd);
          attribute.String "db.statement" (cmd_String cmd) ] :: extra.
Proof. cbn [pair_world spans set_spans]. rewrite <- app_assoc. reflexivity. Qed.

Lemma spans_callback_world db sch w extra :
  spans (callback_world db sch w) ++ extra
  = spans w ++ new_Span ("gorm." +:+ Table sch)
        [ attribute.String "db.system" "mysql";
          attribute.String "db.operation" (Table sch);
          attribute.String "db.statement" (stmt_SQL (db_Statement db)) ] :: extra.
Proof. cbn [callback_world spans set_spans]. rewrite <- app_assoc. reflexivity. Qed.

Lemma process_with_pair_one_span
    (h : RedisHook) (fn : ProcessHookFn) (ctx : Context) (cmd : Cmder)
    (w : World) (extra : list Span) :
  spans (snd (fn (pair_ctx ctx w) cmd (pair_world cmd w)))
    = spans (pair_world cmd w) ++ extra ->
  exists s,
    spans (snd (process_with_pair h fn ctx cmd w)) = spans w ++ s :: extra /\
    span_name s = "redis." +:+ cmd_Name cmd /\
    span_ended s = ends_after (fst (fn (pair_ctx ctx w) cmd (pair_world cmd w))).
Proof.
  intros Hframe. rewrite spans_pair_world in Hframe.
  unfold process_with_pair.
  erewrite Go_bind_Returns by apply BeforeProcess_run.
  destruct (fn (pair_ctx ctx w) cmd (pair_world cmd w))
    as [[[cmd' retErr] | msg] w2] eqn:Ecall; cbn [fst snd ends_after] in *.
  - erewrite Go_bind_Returns by exact Ecall.
    unfold AfterProcess.
    replace (context.Value (pair_ctx ctx w) redisSpanKey)
      with (Some (SpanValue (length (spans w)))) by reflexivity.
    destruct (cmd_Err cmd') as [e |]; [destruct (is_redis_Nil e) |];
      cbn [negb]; run_span_calls; rewrite Hframe, !alter_middle;
      eexists; (split; [reflexivity | split; reflexivity]).
  - erewrite Go_bind_Panics by exact Ecall.
    eexists. split; [exact Hframe | split; reflexivity].
Qed.

Lemma Execute_one_span
    (h : GormTracingHook) (k : Processor) (core : DB -> Go DB) (db : DB)
    (sch : Schema) (w : World) (extra : list Span) :
  stmt_Schema (db_Statement db) = Some sch ->
  spans (snd (core (callback_db db w) (callback_world db sch w)))
    = spans (callback_world db sch w) ++ extra ->
  (forall db', fst (core (callback_db db w) (callback_world db sch w)) = Returns db' ->
     stmt_Context (db_Statement db') = stmt_Context (db_Statement (callback_db db w))) ->
  exists s,
    spans (snd (Execute (fst (Initialize h)) k core db w)) = spans w ++ s :: extra /\
    span_name s = "gorm." +:+ Table sch /\
    span_ended s =
      ends_after (fst (core (callback_db db w) (callback_world db sch w))).
Proof.
  intros Hsch Hframe Hctx. rewrite spans_callback_world in Hframe.
  assert (Hrun : Execute (fst (Initialize h)) k core db
                 = (db1 ← before h db; db2 ← core db1;
                    db3 ← (after h db2;; mret db2); mret db3)).
  { destruct k; reflexivity. }
  rewrite Hrun. clear Hrun.
  erewrite Go_bind_Returns by (apply before_run; exact Hsch).
  destruct (core (callback_db db w) (callback_world db sch w))
    as [[db' | msg] w2] eqn:Ecall; cbn [fst snd ends_after] in *.
  - erewrite Go_bind_Returns by exact Ecall.
    specialize (Hctx db' eq_refl).
    unfold after. rewrite Hctx.
    replace (context.Value (stmt_Context (db_Statement (callback_db db w))) dbSpanKey)
      with (Some (SpanValue (length (spans w)))) by reflexivity.
    destruct (db_Error db') as [e |];
      run_span_calls; rewrite Hframe, !alter_middle;
      eexists; (split; [reflexivity | split; reflexivity]).
  - erewrite Go_bind_Panics by exact Ecall.
    eexists. split; [exact Hframe | split; reflexivity].
Qed.

(** C4 (as the code has it). Around a wrapped call that leaves the spans
    existing at its start alone, one before/after pair starts exactly one
    span, named after the command or the table.  The span is ended exactly
    once when the wrapped call returns, with or without an error, and is
    left open when the wrapped call panics, since the after-hook is then
    never reached.  This holds for the Redis pair and, on a statement with a
    schema whose context the operation keeps, for the GORM pair of each of
    the six processors. *)
Theorem hook_pair_one_span :
  (forall (h : RedisHook) (fn : ProcessHookFn) (ctx : Context) (cmd : Cmder)
          (w : World) (extra : list Span),
      spans (snd (fn (pair_ctx ctx w) cmd (pair_world cmd w)))
        = spans (pair_world cmd w) ++ extra ->
      exists s,
        spans (snd (process_with_pair h fn ctx cmd w)) = spans w ++ s :: extra /\
        span_name s = "redis." +:+ cmd_Name cmd /\
        span_ended s
          = ends_after (fst (fn (pair_ctx ctx w) cmd (pair_world cmd w)))) /\
  (forall (h : GormTracingHook) (k : Processor) (core : DB -> Go DB) (db : DB)
          (sch : Schema) (w : World) (extra : list Span),
      stmt_Schema (db_Statement db) = Some sch ->
      spans (snd (core (callback_db db w) (callback_world db sch w)))
        = spans (callback_world db sch w) ++ extra ->
      (forall db',
          fst (core (callback_db db w) (callback_world db sch w)) = Returns db' ->
          stmt_Context (db_Statement db')
            = stmt_Context (db_Statement (callback_db db w))) ->
      exists s,
        spans (snd (Execute (fst (Initialize h)) k core db w))
          = spans w ++ s :: extra /\
        span_name s = "gorm." +:+ Table sch /\
        span_ended s
          = ends_after (fst (core (callback_db db w) (callback_world db sch w)))).
Proof.
  split.
  - apply process_with_pair_one_span.
  - apply Execute_one_span.
Qed.

Lemma hook_pair_one_span_witness :
  (exists s,
      spans (snd (process_with_pair redis_hook0 cmd_fails context.Background
                    get_ok world0)) = [s] /\
      span_name s = "redis.get" /\ span_ended s = 1%nat) /\
  (exists s,
      spans (snd (Execute (fst (Initialize gorm_hook0)) Query query_fails
                    users_db world0)) = [s] /\
      span_name s = "gorm.users" /\ span_ended s = 1%nat).
Proof.
  destruct hook_pair_one_span as [Hredis Hgorm].
  split.
  - apply (Hredis redis_hook0 cmd_fails context.Background get_ok world0 []).
    reflexivity.
  - apply (Hgorm gorm_hook0 Query query_fails users_db (mkSchema "users") world0 []).
    + reflexivity.
    + reflexivity.
    + intros db' Hret. inversion Hret. reflexivity.
Defined.

(** C4 counterexample. A Redis command that panics between the two hooks:
    the pair has started its span and never ends it. *)
Lemma pair_around_panic_leaves_span_open :
  fst (process_with_pair redis_hook0 cmd_panics context.Background get_ok world0)
    = Panics "connection pool closed" /\
  length (spans (snd (process_with_pair redis_hook0 cmd_panics context.Background
                        get_ok world0))) = 1%nat /\
  ended_of 0 (snd (process_with_pair redis_hook0 cmd_panics context.Background
                     get_ok world0)) = Some 0%nat.
Proof. repeat split. Qed.

(* ================================================================== *)
(** * Further properties of the code                                   *)
(* ================================================================== *)

(** ** provider.go: what a construction creates, and when it fails *)

Lemma applyOptions_None_iff (os : list Option) (o : options) :
  applyOptions os o = None <-> In None os.
Proof.
  revert o. induction os as [| [opt |] rest IH]; intros o; cbn.
  - split; [discriminate | tauto].
  - rewrite IH. split; [tauto | intros [Hx | Hx]; [discriminate | exact Hx]].
  - split; [tauto | reflexivity].
Qed.

(** X1. A nil option anywhere in the list makes [NewOTelProvider] panic
    before it has created anything: the process is as it was. *)
Theorem NewOTelProvider_nil_option (os : list Option) (w : World) :
  In None os ->
  NewOTelProvider os w = (Panics nil_dereference, w).
Proof.
  intros Hnil. apply (applyOptions_None_iff os defaultOptions) in Hnil.
  unfold NewOTelProvider. rewrite Hnil. reflexivity.
Qed.

Lemma NewOTelProvider_nil_option_witness :
  NewOTelProvider [WithServiceName "orders"; None; WithInsecure false] world0
    = (Panics nil_dereference, world0).
Proof.
  apply (NewOTelProvider_nil_option
           [WithServiceName "orders"; None; WithInsecure false] world0).
  cbn. tauto.
Defined.

Lemma effective_endpoint_nonempty (o : options) :
  String.eqb (effective_endpoint o) "" = false.
Proof.
  unfold effective_endpoint.
  destruct (String.eqb (endpoint o) "") eqn:E; [reflexivity | exact E].
Qed.

Ltac split_protocol p :=
  destruct (String.eqb (protocol (opts p)) ProtocolGRPC) eqn:Egrpc;
  [ apply String.eqb_eq in Egrpc
  | apply String.eqb_neq in Egrpc;
    destruct (String.eqb (protocol (opts p)) ProtocolHTTP) eqn:Ehttp;
    [ apply String.eqb_eq in Ehttp | apply String.eqb_neq in Ehttp ];
    (destruct (String.eqb (protocol (opts p)) ProtocolJSON) eqn:Ejson;
     [ apply String.eqb_eq in Ejson | apply String.eqb_neq in Ejson ]) ].

Ltac created_exporter H :=
  unfold exporter_New in H;
  match type of H with
  | context [grpc_New_err ?e ?o] => destruct (grpc_New_err e o)
  | context [http_New_err ?e ?o] => destruct (http_New_err e o)
  end; inversion H; subst; clear H;
  eexists; split; [reflexivity | split; [reflexivity |]].

(** X2. The exporter [createExporter] creates: binary gRPC transport exactly
    for protocol "grpc"; the insecure option exactly when the insecure flag
    is set; one endpoint option, the configured endpoint or, when that is
    empty, "localhost:4317" for every protocol (the "localhost:4318" of the
    HTTP case is never taken); a timeout option exactly when the timeout is
    positive; the JSON content-type header exactly for protocol "json". *)
Theorem createExporter_configuration (p : OTelProvider) (w w1 : World) (n : nat) :
  createExporter p w = (Returns (Success n), w1) ->
  exists x,
    n = length (exporters w) /\
    w1 = set_exporters (exporters w ++ [x]) w /\
    (exp_transport x = TransportGRPC <-> protocol (opts p) = ProtocolGRPC) /\
    (In ExpWithInsecure (exp_options x) <-> insecure (opts p) = true) /\
    (forall ep, In (ExpWithEndpoint ep) (exp_options x)
                <-> ep = effective_endpoint (opts p)) /\
    (forall d, In (ExpWithTimeout d) (exp_options x)
               <-> d = timeout (opts p) /\ 0 < d) /\
    (forall h, In (ExpWithHeaders h) (exp_options x)
               <-> protocol (opts p) = ProtocolJSON /\
                   h = [("Content-Type", "application/json")]).
Proof.
  intros H. unfold createExporter in H.
  fold (effective_endpoint (opts p)) in H.
  rewrite (effective_endpoint_nonempty (opts p)) in H.
  assert (Hj : ProtocolGRPC <> ProtocolJSON) by discriminate.
  assert (Hh : ProtocolHTTP <> ProtocolJSON) by discriminate.
  split_protocol p; cbn [orb] in H; try discriminate H;
    destruct (insecure (opts p)) eqn:Eins;
    destruct (0 <? timeout (opts p)) eqn:Et;
    [ apply Z.ltb_lt in Et | apply Z.ltb_ge in Et
    | apply Z.ltb_lt in Et | apply Z.ltb_ge in Et
    | apply Z.ltb_lt in Et | apply Z.ltb_ge in Et
    | apply Z.ltb_lt in Et | apply Z.ltb_ge in Et
    | apply Z.ltb_lt in Et | apply Z.ltb_ge in Et
    | apply Z.ltb_lt in Et | apply Z.ltb_ge in Et
    | apply Z.ltb_lt in Et | apply Z.ltb_ge in Et
    | apply Z.ltb_lt in Et | apply Z.ltb_ge in Et ];
    created_exporter H; cbn;
    repeat split; intros;
    repeat match goal with
           | Hor : _ \/ _ |- _ => destruct Hor
           | Hand : _ /\ _ |- _ => destruct Hand
           end;
    subst; try tauto; try discriminate; try congruence; try lia;
    try (exfalso; lia);
    try match goal with
        | Heq : ExpWithTimeout _ = ExpWithTimeout _ |- _ =>
            inversion Heq; subst; (split; [reflexivity | lia])
        end.
Qed.

Lemma createExporter_configuration_witness :
  exists x,
    exporters (snd (createExporter (fresh_provider json_options) world0)) = [x] /\
    exp_transport x <> TransportGRPC /\
    In (ExpWithEndpoint "localhost:4317") (exp_options x) /\
    ~ In (ExpWithTimeout 0) (exp_options x).
Proof.
  edestruct (createExporter_configuration (fresh_provider json_options) world0)
    as (x & _ & Hw & Ht & _ & Hep & Hto & _); [vm_compute; reflexivity |].
  exists x. split; [| split; [| split]].
  - transitivity (exporters (set_exporters (exporters world0 ++ [x]) world0));
      [rewrite <- Hw |]; reflexivity.
  - intros Hx. apply Ht in Hx. discriminate Hx.
  - apply Hep. reflexivity.
  - intros Hx. apply Hto in Hx. destruct Hx as [_ Hx]. lia.
Defined.


Lemma createExporter_unsupported (p : OTelProvider) (w : World) :
  supported (protocol (opts p)) = false ->
  createExporter p w
  = (Returns (Failure (ErrorString ("unsupported protocol: " +:+ protocol (opts p)))), w).
Proof.
  unfold supported, createExporter. intros Hsup. revert Hsup.
  split_protocol p; cbn [orb]; intros Hsup; try discriminate Hsup. reflexivity.
Qed.

Lemma NewOTelProvider_run (os : list Option) (o : options) (w : World) :
  applyOptions os defaultOptions = Some o ->
  NewOTelProvider os w
  = (s ← setup (fresh_provider o) (None, None);
     match snd s with
     | Some e =>
         mret (mkResult None None (Some (Wrapf "setup provider failed" e)))
     | None =>
         mret (mkResult (Some (mkOTelProvider o (fst s) (mkOnce true)))
                 (Some (Shutdown (mkOTelProvider o (fst s) (mkOnce true))
                          context.Background;; mret tt)) None)
     end) w.
Proof.
  intros Ho. unfold NewOTelProvider. rewrite Ho.
  unfold Once_Do, fresh_provider. cbn [once done tracerProvider].
  unfold mbind, Go_bind.
  destruct (setup _ _ w) as [[[tp err] | msg] w1]; [| reflexivity].
  cbn [mret Go_ret snd fst]. destruct err; reflexivity.
Qed.



(** X4. With a protocol other than "grpc", "http" and "json",
    [NewOTelProvider] returns no provider and no clean-up, only the error
    "setup provider failed: create exporter failed: unsupported protocol:"
    followed by the protocol, and the process is as it was. *)
Theorem NewOTelProvider_unsupported_protocol (os : list Option) (o : options)
    (w : World) :
  applyOptions os defaultOptions = Some o ->
  supported (protocol o) = false ->
  NewOTelProvider os w
  = (Returns (mkResult None None
       (Some (Wrapf "setup provider failed"
          (Wrapf "create exporter failed"
             (ErrorString ("unsupported protocol: " +:+ protocol o)))))), w) /\
  error_text_of (NewOTelProvider os w)
  = Some ("setup provider failed: create exporter failed: unsupported protocol: "
          +:+ protocol o).
Proof.
  intros Ho Hsup.
  assert (Hrun : NewOTelProvider os w
    = (Returns (mkResult None None
         (Some (Wrapf "setup provider failed"
            (Wrapf "create exporter failed"
               (ErrorString ("unsupported protocol: " +:+ protocol o)))))), w)).
  { rewrite (NewOTelProvider_run os o w Ho).
    assert (Hs : setup (fresh_provider o) (None, None) w
                 = (Returns (None, Some (Wrapf "create exporter failed"
                      (ErrorString ("unsupported protocol: " +:+ protocol o)))), w)).
    { unfold setup.
      erewrite Go_bind_Returns
        by (apply (createExporter_unsupported (fresh_provider o) w); exact Hsup).
      reflexivity. }
    erewrite Go_bind_Returns by exact Hs. reflexivity. }
  split; [exact Hrun |].
  unfold error_text_of. rewrite Hrun. reflexivity.
Qed.

Lemma NewOTelProvider_unsupported_protocol_witness :
  error_text_of (NewOTelProvider [WithExportProtocol "thrift"] world0)
  = Some "setup provider failed: create exporter failed: unsupported protocol: thrift" /\
  snd (NewOTelProvider [WithExportProtocol "thrift"] world0) = world0.
Proof.
  destruct (NewOTelProvider_unsupported_protocol [WithExportProtocol "thrift"]
              (default defaultOptions
                 (applyOptions [WithExportProtocol "thrift"] defaultOptions))
              world0 eq_refl eq_refl) as [Hrun Htext].
  split; [exact Htext | rewrite Hrun; reflexivity].
Defined.







(** X7. The clean-up closure a successful [NewOTelProvider] returns shuts
    down the tracer provider that call created, once per use, and returns
    nothing: an error of the SDK's shutdown is dropped. *)
Theorem cleanup_shuts_down (os : list Option) (w : World) (c : Go unit) :
  cleanup_of (NewOTelProvider os w) = Some c ->
  forall v, c v = (Returns tt,
                   set_shutdowns (shutdowns v ++ [length (tracerProviders w)]) v).
Proof.
  unfold cleanup_of.
  destruct (NewOTelProvider_spec os w)
    as [[_ H] | [(e & w1 & H & _) | (o & c' & w1 & Ho & H & _)]];
    rewrite H; cbn [fst res_cleanup]; try discriminate.
  intros Hc v.
  rewrite (NewOTelProvider_run os o w Ho) in H.
  destruct (setup_spec (fresh_provider o) (None, None) w)
    as [(e & w2 & Hs & _) | (w2 & Hs & _)];
    erewrite Go_bind_Returns in H by exact Hs; cbn in H; inversion H; subst.
  inversion Hc. subst. reflexivity.
Qed.

Lemma cleanup_shuts_down_witness :
  match cleanup_of (NewOTelProvider [] (initial_World env_shutdown_fails)) with
  | Some c =>
      c (initial_World env_shutdown_fails)
      = (Returns tt, set_shutdowns [0%nat] (initial_World env_shutdown_fails))
  | None => False
  end.
Proof.
  destruct (cleanup_of (NewOTelProvider [] (initial_World env_shutdown_fails)))
    as [c |] eqn:Ec.
  - apply (cleanup_shuts_down [] (initial_World env_shutdown_fails) c Ec).
  - vm_compute in Ec. discriminate Ec.
Defined.

Lemma constructed_provider_shape (os : list Option) (w : World) (p : OTelProvider) :
  provider_of (NewOTelProvider os w) = Some p ->
  exists o, p = mkOTelProvider o (Some (length (tracerProviders w))) (mkOnce true).
Proof.
  unfold provider_of.
  destruct (NewOTelProvider_spec os w)
    as [[_ H] | [(e & w1 & H & _) | (o & c' & w1 & Ho & H & _)]];
    rewrite H; cbn [fst res_provider]; try discriminate.
  intros Hp. inversion Hp. subst. eauto.
Qed.

(** X8. On the provider a successful [NewOTelProvider] returns, [Tracer]
    gives, for every name and without touching the process, the tracer of
    that name of the tracer provider the call created, and [Shutdown] hands
    that tracer provider to the SDK's shutdown and returns the SDK's
    answer. *)
Theorem constructed_provider_Tracer_Shutdown (os : list Option) (w : World)
    (p : OTelProvider) :
  provider_of (NewOTelProvider os w) = Some p ->
  forall name ctx v,
    OTelProvider_Tracer p name v
    = (Returns (mkTracer (length (tracerProviders w)) name), v) /\
    Shutdown p ctx v
    = (Returns (Shutdown_err (sdk v) (length (tracerProviders w))),
       set_shutdowns (shutdowns v ++ [length (tracerProviders w)]) v).
Proof.
  intros Hp name ctx v.
  destruct (constructed_provider_shape os w p Hp) as [o ->].
  split; reflexivity.
Qed.

Lemma constructed_provider_Tracer_Shutdown_witness :
  match provider_of first_run with
  | Some p =>
      OTelProvider_Tracer p "grpc-server" (snd first_run)
      = (Returns (mkTracer 0 "grpc-server"), snd first_run)
  | None => False
  end.
Proof.
  destruct (provider_of first_run) as [p |] eqn:Ep.
  - apply (constructed_provider_Tracer_Shutdown [] world0 p Ep "grpc-server"
             context.Background (snd first_run)).
  - vm_compute in Ep. discriminate Ep.
Defined.

Lemma setup_worlds (p : OTelProvider) (c : option nat * option error) (w : World) :
  snd (setup p c w) = w \/
  (exists x, snd (setup p c w) = set_exporters (exporters w ++ [x]) w) \/
  (exists x, snd (setup p c w) = constructed_World (opts p) x w).
Proof.
  unfold setup.
  destruct (createExporter_spec p w) as [[e He] | [x He]].
  - left. erewrite Go_bind_Returns by exact He. reflexivity.
  - right. erewrite Go_bind_Returns by exact He.
    unfold createResource, resource_New, mbind, Go_bind.
    cbn [sdk set_exporters].
    destruct (resource_New_err _ _); [left | right]; exists x; reflexivity.
Qed.

(** X9. Whatever its outcome, [NewOTelProvider] creates at most one exporter
    and at most one tracer provider, keeps those that exist, and touches
    nothing else of the process: not the package variable [Provider], not
    the tracer registry, no span, no log line. *)
Theorem NewOTelProvider_frame (os : list Option) (w : World) :
  same_outside_construction w (snd (NewOTelProvider os w)) /\
  (exists xs, exporters (snd (NewOTelProvider os w)) = exporters w ++ xs /\
              (length xs <= 1)%nat) /\
  (exists ts, tracerProviders (snd (NewOTelProvider os w)) = tracerProviders w ++ ts /\
              (length ts <= 1)%nat).
Proof.
  assert (Hnil : forall v : World,
             same_outside_construction v v /\
             (exists xs, exporters v = exporters v ++ xs /\ (length xs <= 1)%nat) /\
             (exists ts, tracerProviders v = tracerProviders v ++ ts /\
                         (length ts <= 1)%nat)).
  { intros v. split; [repeat split |].
    split; exists []; rewrite app_nil_r; split; cbn; auto with lia. }
  destruct (applyOptions os defaultOptions) as [o |] eqn:Ho.
  - assert (Hw : snd (NewOTelProvider os w)
                 = snd (setup (fresh_provider o) (None, None) w)).
    { rewrite (NewOTelProvider_run os o w Ho). unfold mbind, Go_bind.
      destruct (setup _ _ w) as [[[tp err] | msg] w1]; [| reflexivity].
      cbn [snd]. destruct err; reflexivity. }
    rewrite Hw.
    destruct (setup_worlds (fresh_provider o) (None, None) w)
      as [H | [[x H] | [x H]]]; rewrite H.
    + apply Hnil.
    + split; [repeat split |].
      split; [exists [x] | exists []]; cbn; rewrite ?app_nil_r; auto with lia.
    + split; [repeat split |].
      split; [exists [x] | eexists [_]]; cbn; auto with lia.
  - unfold NewOTelProvider. rewrite Ho. apply Hnil.
Qed.

(** ** The tracer registry *)

Lemma RegisterTracer_run (name : string) (tracer : Tracer) (w : World) :
  RegisterTracer name tracer w
  = (Returns tt,
     set_tracerRegistry (<[name := tracer]> (tracerRegistry w))
       (if decide (is_Some (tracerRegistry w !! name))
        then set_logged (logged w ++ [already_registered name]) w
        else w)).
Proof.
  unfold RegisterTracer, get_World, mbind, Go_bind.
  destruct (decide (is_Some (tracerRegistry w !! name))); reflexivity.
Qed.

Lemma GetTracer_registered (name : string) (tracer : Tracer) (w : World) :
  tracerRegistry w !! name = Some tracer ->
  GetTracer name w = (Returns tracer, w).
Proof.
  intros Hreg. unfold GetTracer, get_World, mbind, Go_bind. rewrite Hreg.
  reflexivity.
Qed.

(** X10. A tracer registered under a name is what [GetTracer] returns for
    that name, whatever the registry held before and whether or not
    [Provider] is set; the lookup changes nothing. *)
Theorem GetTracer_after_RegisterTracer (name : string) (tracer : Tracer)
    (w : World) :
  GetTracer name (snd (RegisterTracer name tracer w))
  = (Returns tracer, snd (RegisterTracer name tracer w)).
Proof.
  apply GetTracer_registered.
  rewrite RegisterTracer_run. cbn [snd tracerRegistry set_tracerRegistry].
  apply lookup_insert_eq.
Qed.

(** X11. Registering a name a second time replaces the tracer (the last
    registration is the one [GetTracer] returns, and the registry is as if
    only that one had been made) and writes exactly one line "Tracer <name>
    already registered" to the log; registering a name that is free writes
    none. *)
Theorem RegisterTracer_overwrites_and_logs (name : string) (t1 t2 : Tracer)
    (w : World) :
  let w1 := snd (RegisterTracer name t1 w) in
  let w2 := snd (RegisterTracer name t2 w1) in
  fst (GetTracer name w2) = Returns t2 /\
  tracerRegistry w2 = <[name := t2]> (tracerRegistry w) /\
  logged w2 = logged w1 ++ [already_registered name] /\
  (tracerRegistry w !! name = None -> logged w1 = logged w).
Proof.
  cbn zeta. split; [| split; [| split]].
  - erewrite GetTracer_registered; [reflexivity |].
    rewrite (RegisterTracer_run name t2). cbn [snd tracerRegistry set_tracerRegistry].
    apply lookup_insert_eq.
  - rewrite !RegisterTracer_run. cbn [snd tracerRegistry set_tracerRegistry].
    apply insert_insert_eq.
  - rewrite (RegisterTracer_run name t2). cbn [snd].
    rewrite RegisterTracer_run. cbn [snd tracerRegistry set_tracerRegistry].
    rewrite lookup_insert_eq.
    destruct (decide (is_Some (Some t1))) as [_ | Hno];
      [reflexivity | exfalso; apply Hno; eauto].
  - intros Hfree. rewrite RegisterTracer_run. cbn [snd]. rewrite Hfree.
    destruct (decide (is_Some None)) as [[x Hx] | _]; [discriminate Hx | reflexivity].
Qed.

Lemma RegisterTracer_overwrites_and_logs_witness :
  logged (snd (RegisterTracer "orders" billing_tracer
                 (snd (RegisterTracer "orders" orders_tracer world0))))
  = [already_registered "orders"] /\
  already_registered "orders" = "Tracer orders already registered".
Proof.
  destruct (RegisterTracer_overwrites_and_logs "orders" orders_tracer
              billing_tracer world0) as (_ & _ & Hlog & Hfree).
  split; [| reflexivity].
  rewrite Hlog, (Hfree eq_refl). reflexivity.
Defined.

(** X12. Registering under one name does not change what [GetTracer]
    answers for any other name. *)
Theorem RegisterTracer_other_name (name other : string) (tracer : Tracer)
    (w : World) :
  name <> other ->
  fst (GetTracer other (snd (RegisterTracer name tracer w)))
  = fst (GetTracer other w).
Proof.
  intros Hne. rewrite RegisterTracer_run. cbn [snd].
  unfold GetTracer, get_World, mbind, Go_bind.
  cbn [tracerRegistry set_tracerRegistry].
  rewrite lookup_insert_ne by exact Hne.
  destruct (decide (is_Some (tracerRegistry w !! name)));
    cbn [tracerRegistry set_logged];
    destruct (tracerRegistry w !! other); try reflexivity;
    cbn [Provider set_tracerRegistry set_logged];
    destruct (Provider w) as [p |]; try reflexivity;
    cbn [deref mret Go_ret]; unfold OTelProvider_Tracer, TracerProvider_Tracer;
    destruct (tracerProvider p); reflexivity.
Qed.

Lemma RegisterTracer_other_name_witness :
  fst (GetTracer "billing" (snd (RegisterTracer "orders" orders_tracer
         (snd (RegisterTracer "billing" billing_tracer world0)))))
  = Returns billing_tracer.
Proof.
  rewrite (RegisterTracer_other_name "orders" "billing" orders_tracer
             (snd (RegisterTracer "billing" billing_tracer world0)))
    by discriminate.
  reflexivity.
Defined.

(** X13. Once the application has assigned to [Provider] the provider a
    successful [NewOTelProvider] returned, [GetTracer] of any unregistered
    name returns the tracer named "default" of the tracer provider that
    call created, whatever name was asked for, and changes nothing. *)
Theorem GetTracer_fallback_after_assignment (os : list Option) (w v : World)
    (p : OTelProvider) (name : string) :
  provider_of (NewOTelProvider os w) = Some p ->
  Provider v = Some p ->
  tracerRegistry v !! name = None ->
  GetTracer name v = (Returns (mkTracer (length (tracerProviders w)) "default"), v).
Proof.
  intros Hp HP Hreg.
  destruct (constructed_provider_shape os w p Hp) as [o ->].
  unfold GetTracer, get_World, mbind, Go_bind. rewrite Hreg, HP. reflexivity.
Qed.

Lemma GetTracer_fallback_after_assignment_witness :
  GetTracer "orders" world_with_Provider
  = (Returns (mkTracer 0 "default"), world_with_Provider).
Proof.
  destruct (provider_of first_run) as [p |] eqn:Ep;
    [| vm_compute in Ep; discriminate Ep].
  apply (GetTracer_fallback_after_assignment [] world0 world_with_Provider p "orders").
  - exact Ep.
  - unfold world_with_Provider. rewrite Ep. reflexivity.
  - reflexivity.
Defined.

(** ** The after-hooks *)

Lemma alter_to_insert {A : Type} (f : A -> A) (l : list A) (i : nat) (x : A) :
  l !! i = Some x -> alter f i l = <[i := f x]> l.
Proof.
  intros Hx. apply list_eq. intros j.
  destruct (decide (i = j)) as [<- | Hne].
  - rewrite list_lookup_alter_eq, Hx.
    rewrite list_lookup_insert_eq by (eapply lookup_lt_Some; exact Hx).
    reflexivity.
  - rewrite list_lookup_alter_ne, list_lookup_insert_ne by exact Hne.
    reflexivity.
Qed.

Ltac close_span Hs :=
  run_span_calls;
  rewrite ?list_alter_alter_eq;
  rewrite (alter_to_insert _ _ _ _ Hs);
  reflexivity.

(** X14. Effect of an after-hook that finds its span: that span, and no
    other, changes; it is ended once more; its name and attributes stay;
    when the call failed (for Redis: with an error other than [redis.Nil])
    the error is recorded on it exactly once and becomes its Error status,
    otherwise nothing is recorded.  The hook itself returns no error. *)
Theorem after_hooks_effect :
  (forall h ctx cmd w span s,
      context.Value ctx redisSpanKey = Some (SpanValue span) ->
      spans w !! span = Some s ->
      AfterProcess h ctx cmd w
      = (Returns None,
         set_spans (<[span := closed_Span s (failure_of cmd)]> (spans w)) w)) /\
  (forall h db w span s,
      context.Value (stmt_Context (db_Statement db)) dbSpanKey
        = Some (SpanValue span) ->
      spans w !! span = Some s ->
      after h db w
      = (Returns tt,
         set_spans (<[span := closed_Span s (db_Error db)]> (spans w)) w)).
Proof.
  split.
  - intros h ctx cmd w span s Hctx Hs.
    unfold AfterProcess, failure_of, closed_Span. rewrite Hctx.
    destruct (cmd_Err cmd) as [e |]; [destruct (is_redis_Nil e) |];
      cbn [negb]; close_span Hs.
  - intros h db w span s Hctx Hs.
    unfold after, closed_Span. rewrite Hctx.
    destruct (db_Error db) as [e |]; close_span Hs.
Qed.

Lemma after_hooks_effect_witness :
  AfterProcess redis_hook0
    (context.WithValue context.Background redisSpanKey (SpanValue 0%nat))
    set_failed (set_spans [new_Span "redis.set" []] world0)
  = (Returns None,
     set_spans [mkSpan "redis.set" [] (codes.Error, "READONLY")
                  [ErrorString "READONLY"] 1] world0).
Proof.
  destruct after_hooks_effect as [Hredis _].
  apply (Hredis redis_hook0
           (context.WithValue context.Background redisSpanKey (SpanValue 0%nat))
           set_failed (set_spans [new_Span "redis.set" []] world0) 0%nat
           (new_Span "redis.set" [])); reflexivity.
Defined.

(** X15. An after-hook that finds no span under its key in the context it
    is given (the before-hook did not run, or the context is another one)
    does nothing and reports nothing: this holds for [AfterProcess], for
    [AfterProcessPipeline] and for the GORM [after]. *)
Theorem after_hooks_without_span :
  (forall h ctx cmd w,
      no_span_under redisSpanKey ctx ->
      AfterProcess h ctx cmd w = (Returns None, w)) /\
  (forall h ctx cmds w,
      no_span_under redisSpanKey ctx ->
      AfterProcessPipeline h ctx cmds w = (Returns None, w)) /\
  (forall h db w,
      no_span_under dbSpanKey (stmt_Context (db_Statement db)) ->
      after h db w = (Returns tt, w)).
Proof.
  unfold no_span_under.
  split; [| split].
  - intros h ctx cmd w Hno. unfold AfterProcess.
    destruct (context.Value ctx redisSpanKey) as [[sp | | |] |] eqn:E;
      [exfalso; eapply Hno; reflexivity | reflexivity ..].
  - intros h ctx cmds w Hno. unfold AfterProcessPipeline.
    destruct (context.Value ctx redisSpanKey) as [[sp | | |] |] eqn:E;
      [exfalso; eapply Hno; reflexivity | reflexivity ..].
  - intros h db w Hno. unfold after.
    destruct (context.Value _ dbSpanKey) as [[sp | | |] |] eqn:E;
      [exfalso; eapply Hno; reflexivity | reflexivity ..].
Qed.

Lemma after_hooks_without_span_witness :
  AfterProcess redis_hook0
    (stmt_Context (db_Statement (callback_db users_db world0)))
    get_failed (callback_world users_db (mkSchema "users") world0)
  = (Returns None, callback_world users_db (mkSchema "users") world0).
Proof.
  destruct after_hooks_without_span as [Hredis _].
  apply (Hredis redis_hook0
           (stmt_Context (db_Statement (callback_db users_db world0)))
           get_failed (callback_world users_db (mkSchema "users") world0)).
  intros sp Hsp. vm_compute in Hsp. discriminate Hsp.
Defined.

Lemma AfterProcess_returns_nil (h : RedisHook) (ctx : Context) (cmd : Cmder)
    (w : World) :
  fst (AfterProcess h ctx cmd w) = Returns None.
Proof.
  unfold AfterProcess.
  destruct (context.Value ctx redisSpanKey) as [[sp | | |] |]; try reflexivity.
  destruct (cmd_Err cmd) as [e |]; [destruct (is_redis_Nil e) |]; reflexivity.
Qed.

(** X16. The before/after pair is transparent to the caller: a command run
    between the two hooks hands back exactly what the wrapped call handed
    back, the command with its error and the returned error, or the wrapped
    call's panic; the hooks add no error of their own. *)
Theorem process_with_pair_transparent (h : RedisHook) (fn : ProcessHookFn)
    (ctx : Context) (cmd : Cmder) (w : World) :
  fst (process_with_pair h fn ctx cmd w)
  = fst (fn (pair_ctx ctx w) cmd (pair_world cmd w)).
Proof.
  unfold process_with_pair.
  erewrite Go_bind_Returns by apply BeforeProcess_run.
  destruct (fn (pair_ctx ctx w) cmd (pair_world cmd w))
    as [[[cmd' retErr] | msg] w2] eqn:Ecall.
  - erewrite Go_bind_Returns by exact Ecall. cbn [fst].
    pose proof (AfterProcess_returns_nil h (pair_ctx ctx w) cmd' w2) as Hnil.
    unfold mbind, Go_bind.
    destruct (AfterProcess h (pair_ctx ctx w) cmd' w2) as [r w3].
    cbn [fst] in Hnil. subst r. reflexivity.
  - erewrite Go_bind_Panics by exact Ecall. reflexivity.
Qed.

Lemma ctxKey_eqb_eq (a b : ctxKey) : ctxKey_eqb a b = true <-> a = b.
Proof.
  destruct a, b; cbn; try (split; [discriminate | discriminate]);
    try (split; reflexivity).
  rewrite String.eqb_eq. split; [intros -> | intros H; inversion H]; reflexivity.
Qed.

Lemma context_Value_other (ctx : Context) (k k' : ctxKey) (v : ctxValue) :
  k <> k' -> context.Value (context.WithValue ctx k v) k' = context.Value ctx k'.
Proof.
  intros Hne. cbn [context.WithValue context.Value].
  destruct (ctxKey_eqb k k') eqn:E; [| reflexivity].
  apply ctxKey_eqb_eq in E. contradiction.
Qed.

(** X17. What a before-hook does to the context: the context it returns
    binds the span it has just started under the hook's own key and as the
    current span, and answers every other key as the context it was
    given.  This holds for [BeforeProcess], [BeforeProcessPipeline] and,
    on a statement with a schema, for the GORM [before], which changes no
    other part of [db]. *)
Theorem before_hooks_context :
  (forall h ctx cmd w,
      exists ctx',
        fst (BeforeProcess h ctx cmd w) = Returns (ctx', None) /\
        context.Value ctx' redisSpanKey = Some (SpanValue (length (spans w))) /\
        context.Value ctx' currentSpanKey = Some (SpanValue (length (spans w))) /\
        forall k, k <> redisSpanKey -> k <> currentSpanKey ->
                  context.Value ctx' k = context.Value ctx k) /\
  (forall h ctx cmds w,
      exists ctx',
        fst (BeforeProcessPipeline h ctx cmds w) = Returns (ctx', None) /\
        context.Value ctx' redisSpanKey = Some (SpanValue (length (spans w))) /\
        context.Value ctx' currentSpanKey = Some (SpanValue (length (spans w))) /\
        forall k, k <> redisSpanKey -> k <> currentSpanKey ->
                  context.Value ctx' k = context.Value ctx k) /\
  (forall h db sch w,
      stmt_Schema (db_Statement db) = Some sch ->
      exists ctx',
        fst (before h db w)
        = Returns (mkDB (mkStatement (Some sch) ctx' (stmt_SQL (db_Statement db)))
                     (db_Error db)) /\
        context.Value ctx' dbSpanKey = Some (SpanValue (length (spans w))) /\
        context.Value ctx' currentSpanKey = Some (SpanValue (length (spans w))) /\
        forall k, k <> dbSpanKey -> k <> currentSpanKey ->
                  context.Value ctx' k = context.Value (stmt_Context (db_Statement db)) k).
Proof.
  split; [| split].
  - intros h ctx cmd w. eexists. split; [reflexivity |].
    split; [reflexivity | split; [reflexivity |]].
    intros k H1 H2. rewrite !context_Value_other by congruence. reflexivity.
  - intros h ctx cmds w. eexists. split; [reflexivity |].
    split; [reflexivity | split; [reflexivity |]].
    intros k H1 H2. rewrite !context_Value_other by congruence. reflexivity.
  - intros h db sch w Hsch. eexists. split.
    + rewrite (before_run h db sch w Hsch). unfold callback_db. rewrite Hsch.
      reflexivity.
    + split; [reflexivity | split; [reflexivity |]].
      intros k H1 H2. rewrite !context_Value_other by congruence. reflexivity.
Qed.

Lemma before_hooks_context_witness :
  exists ctx',
    fst (before gorm_hook0
           (mkDB (mkStatement (Some (mkSchema "users")) peer_ctx "SELECT 1") None)
           world0)
    = Returns (mkDB (mkStatement (Some (mkSchema "users")) ctx' "SELECT 1") None) /\
    context.Value ctx' peerKey = context.Value peer_ctx peerKey.
Proof.
  destruct before_hooks_context as (_ & _ & Hgorm).
  destruct (Hgorm gorm_hook0
              (mkDB (mkStatement (Some (mkSchema "users")) peer_ctx "SELECT 1") None)
              (mkSchema "users") world0 eq_refl)
    as (ctx' & Hrun & _ & _ & Hother).
  exists ctx'. split; [exact Hrun |].
  apply Hother; discriminate.
Defined.

(** ** Pipelines *)

Lemma first_failure_skips_quiet (span : nat) (pre rest : list Cmder) (w : World) :
  Forall quiet pre ->
  first_failure span (pre ++ rest) w = first_failure span rest w.
Proof.
  induction 1 as [| c pre Hc _ IH]; [reflexivity |].
  cbn [app first_failure].
  destruct Hc as [Hc | Hc]; rewrite Hc; exact IH.
Qed.

Lemma first_failure_cases (span : nat) (cmds : list Cmder) (w : World) :
  first_failure span cmds w = (Returns tt, w) \/
  exists e, first_failure span cmds w
            = (Span_RecordError span e;; Span_SetStatus span codes.Error (Error e)) w.
Proof.
  induction cmds as [| c rest IH]; [left; reflexivity |].
  cbn [first_failure].
  destruct (cmd_Err c) as [e |]; [destruct (is_redis_Nil e) |]; cbn [negb]; eauto.
Qed.

(** X18. [AfterProcessPipeline] reports the first failure only.  If every
    command of the pipeline has a nil or [redis.Nil] error, the span is
    ended and nothing is recorded.  Otherwise the error of the first
    command that failed becomes the span's Error status and its only newly
    recorded error, whatever the commands after it did. *)
Theorem AfterProcessPipeline_first_failure (h : RedisHook) (ctx : Context)
    (w : World) (span : nat) (s : Span) :
  context.Value ctx redisSpanKey = Some (SpanValue span) ->
  spans w !! span = Some s ->
  (forall cmds,
      Forall quiet cmds ->
      AfterProcessPipeline h ctx cmds w
      = (Returns None, set_spans (<[span := closed_Span s None]> (spans w)) w)) /\
  (forall pre c post e,
      Forall quiet pre -> cmd_Err c = Some e -> is_redis_Nil e = false ->
      AfterProcessPipeline h ctx (pre ++ c :: post) w
      = (Returns None, set_spans (<[span := closed_Span s (Some e)]> (spans w)) w)).
Proof.
  intros Hctx Hs. split.
  - intros cmds Hq. unfold AfterProcessPipeline. rewrite Hctx.
    unfold defer, mbind, Go_bind.
    replace (first_failure span cmds w) with (first_failure span (cmds ++ []) w)
      by (rewrite app_nil_r; reflexivity).
    rewrite (first_failure_skips_quiet _ _ _ _ Hq).
    cbn [first_failure]. unfold closed_Span. close_span Hs.
  - intros pre c post e Hq Hc He. unfold AfterProcessPipeline. rewrite Hctx.
    unfold defer, mbind, Go_bind. rewrite (first_failure_skips_quiet _ _ _ _ Hq).
    cbn [first_failure]. rewrite Hc, He. cbn [negb].
    unfold closed_Span. close_span Hs.
Qed.

Lemma AfterProcessPipeline_first_failure_witness :
  AfterProcessPipeline redis_hook0
    (context.WithValue context.Background redisSpanKey (SpanValue 0%nat))
    [get_ok; get_missing; set_failed; del_failed]
    (set_spans [new_Span "redis.pipeline" []] world0)
  = (Returns None,
     set_spans [mkSpan "redis.pipeline" [] (codes.Error, "READONLY")
                  [ErrorString "READONLY"] 1] world0).
Proof.
  destruct (AfterProcessPipeline_first_failure redis_hook0
              (context.WithValue context.Background redisSpanKey (SpanValue 0%nat))
              (set_spans [new_Span "redis.pipeline" []] world0) 0%nat
              (new_Span "redis.pipeline" []) eq_refl eq_refl) as [_ Hfail].
  apply (Hfail [get_ok; get_missing] set_failed [del_failed] (ErrorString "READONLY")).
  - constructor; [left; reflexivity |].
    constructor; [right; reflexivity |]. constructor.
  - reflexivity.
  - reflexivity.
Defined.

(** X19. The pipeline pair, run around nothing, leaves exactly one more
    span: it is named "redis.pipeline", carries the number of commands of
    the pipeline as [db.redis.num_cmd], and is ended exactly once. *)
Theorem pipeline_pair_span (h : RedisHook) (ctx : Context) (cmds : list Cmder)
    (w : World) :
  exists ctx' st errs,
    fst (BeforeProcessPipeline h ctx cmds w) = Returns (ctx', None) /\
    AfterProcessPipeline h ctx' cmds (snd (BeforeProcessPipeline h ctx cmds w))
    = (Returns None,
       set_spans (spans w ++ [mkSpan "redis.pipeline"
                                (pipeline_attributes (length cmds)) st errs 1]) w).
Proof.
  exists (pair_ctx ctx w).
  assert (Hrun : BeforeProcessPipeline h ctx cmds w
                 = (Returns (pair_ctx ctx w, None),
                    set_spans (spans w ++ [new_Span "redis.pipeline"
                                             (pipeline_attributes (length cmds))]) w))
    by reflexivity.
  rewrite Hrun. cbn [fst snd].
  assert (Hkey : context.Value (pair_ctx ctx w) redisSpanKey
                 = Some (SpanValue (length (spans w)))) by reflexivity.
  unfold AfterProcessPipeline. rewrite Hkey.
  match goal with
  | |- context [first_failure ?sp cmds] =>
      match goal with
      | |- context [(_ ;; mret None) ?v] =>
          destruct (first_failure_cases sp cmds v) as [Hff | [e Hff]]
      end
  end.
  - exists (codes.Unset, ""), []. split; [reflexivity |].
    unfold defer, mbind, Go_bind. rewrite Hff. run_span_calls.
    rewrite alter_middle. reflexivity.
  - exists (codes.Error, Error e), [e]. split; [reflexivity |].
    unfold defer, mbind, Go_bind. rewrite Hff. run_span_calls.
    rewrite !alter_middle. reflexivity.
Qed.

(** ** The GORM plugin *)

(** X20. [Initialize] returns a nil error and registers twelve callbacks
    under twelve different names: on each of the six processors one named
    "tracing:before_<processor>" placed before that processor's own
    callback "gorm:<processor>" and one named "tracing:after_<processor>"
    placed after it. *)
Theorem Initialize_registers_pairs (h : GormTracingHook) :
  snd (Initialize h) = None /\
  length (fst (Initialize h)) = 12%nat /\
  NoDup (map reg_name (fst (Initialize h))) /\
  forall k,
    core_callback k = "gorm:" +:+ processor_suffix k /\
    map reg_name (List.filter (runs_before k) (fst (Initialize h)))
    = ["tracing:before_" +:+ processor_suffix k] /\
    map reg_name (List.filter (runs_after k) (fst (Initialize h)))
    = ["tracing:after_" +:+ processor_suffix k].
Proof.
  split; [reflexivity | split; [reflexivity | split]].
  - apply (bool_decide_unpack _). vm_compute. exact I.
  - intros k. destruct k; repeat split.
Qed.

Lemma after_returns (h : GormTracingHook) (db : DB) (w : World) :
  fst (after h db w) = Returns tt.
Proof.
  unfold after.
  destruct (context.Value _ dbSpanKey) as [[sp | | |] |]; try reflexivity.
  destruct (db_Error db); reflexivity.
Qed.

Lemma Execute_run (h : GormTracingHook) (k : Processor) (core : DB -> Go DB)
    (db : DB) :
  Execute (fst (Initialize h)) k core db
  = (db1 ← before h db; db2 ← core db1; db3 ← (after h db2;; mret db2); mret db3).
Proof. destruct k; reflexivity. Qed.

(** X21. The plugin is transparent to the operation: on a statement with a
    schema, an operation run between the two callbacks hands back exactly
    the [db] its own callback produced, [db.Error] included, or that
    callback's panic. *)
Theorem Execute_transparent (h : GormTracingHook) (k : Processor)
    (core : DB -> Go DB) (db : DB) (sch : Schema) (w : World) :
  stmt_Schema (db_Statement db) = Some sch ->
  fst (Execute (fst (Initialize h)) k core db w)
  = fst (core (callback_db db w) (callback_world db sch w)).
Proof.
  intros Hsch. rewrite Execute_run.
  erewrite Go_bind_Returns by (apply before_run; exact Hsch).
  destruct (core (callback_db db w) (callback_world db sch w))
    as [[db' | msg] w2] eqn:Ecall.
  - erewrite Go_bind_Returns by exact Ecall. cbn [fst].
    pose proof (after_returns h db' w2) as Hret.
    unfold mbind, Go_bind.
    destruct (after h db' w2) as [r w3]. cbn [fst] in Hret. subst r. reflexivity.
  - erewrite Go_bind_Panics by exact Ecall. reflexivity.
Qed.

Lemma Execute_transparent_witness :
  fst (Execute (fst (Initialize gorm_hook0)) Query query_fails users_db world0)
  = Returns (mkDB (db_Statement (callback_db users_db world0)) (Some not_found)).
Proof.
  rewrite (Execute_transparent gorm_hook0 Query query_fails users_db
             (mkSchema "users") world0 eq_refl).
  reflexivity.
Defined.

(** X22. With the plugin installed, an operation on a statement without
    schema never reaches its own callback: on every processor the before
    callback panics first, and the process is as it was. *)
Theorem Execute_without_schema (h : GormTracingHook) (k : Processor)
    (core : DB -> Go DB) (db : DB) (w : World) :
  stmt_Schema (db_Statement db) = None ->
  Execute (fst (Initialize h)) k core db w = (Panics nil_dereference, w).
Proof.
  intros Hnil. rewrite Execute_run.
  apply Go_bind_Panics. unfold before. rewrite Hnil. reflexivity.
Qed.

Lemma Execute_without_schema_witness :
  Execute (fst (Initialize gorm_hook0)) Raw query_ok raw_db world0
  = (Panics nil_dereference, world0).
Proof.
  apply (Execute_without_schema gorm_hook0 Raw query_ok raw_db world0).
  reflexivity.
Defined.

(** ** The unary interceptor: what it leaves on the span *)

Lemma record_metadata_run (span : nat) (md : list (string * list string)) :
  forall (w : World) (s : Span),
    spans w !! span = Some s ->
    record_metadata span md w
    = (Returns tt,
       set_spans (<[span := mkSpan (span_name s)
                              (span_attributes s ++ metadata_attributes md)
                              (span_status s) (span_errors s) (span_ended s)]>
                    (spans w)) w).
Proof.
  induction md as [| [k v] rest IH]; intros w s Hs.
  - cbn [record_metadata metadata_attributes flat_map]. rewrite app_nil_r.
    rewrite list_insert_id by (destruct s; exact Hs).
    destruct w; reflexivity.
  - cbn [record_metadata metadata_attributes flat_map fst snd].
    destruct v as [| v0 vs].
    + cbn [app]. unfold mbind, Go_bind. cbn [mret Go_ret]. apply IH. exact Hs.
    + unfold mbind, Go_bind. run_span_calls.
      rewrite (alter_to_insert _ _ _ _ Hs).
      erewrite IH
        by (cbn [spans set_spans]; apply list_lookup_insert_eq;
            eapply lookup_lt_Some; exact Hs).
      cbn [spans set_spans span_name span_attributes span_status span_errors
           span_ended].
      rewrite list_insert_insert_eq, <- app_assoc. reflexivity.
Qed.

Lemma handler_world_run (ctx : Context) (info : UnaryServerInfo) (addr : string)
    (w : World) :
  handler_world ctx info addr w
  = set_spans (spans w ++ [mkSpan ("grpc." +:+ FullMethod info)
                             (unary_attributes ctx info addr)
                             (codes.Unset, "") [] 0]) w.
Proof.
  unfold handler_world.
  erewrite record_metadata_run
    by (cbn [spans set_spans]; apply list_lookup_middle; reflexivity).
  cbn [snd spans set_spans]. rewrite insert_app_r_alt by lia.
  rewrite Nat.sub_diag. reflexivity.
Qed.

Lemma TracingInterceptor_run (tracer : Tracer) (ctx : Context) (req : any)
    (info : UnaryServerInfo) (handler : UnaryHandler) (w : World) (p : Peer)
    (addr : string) :
  peer_FromContext ctx = Some p ->
  peer_Addr p = Some addr ->
  TracingInterceptor tracer ctx req info handler w
  = defer (Span_End (length (spans w)))
      (startTime ← time_Now;
       '(resp, err) ← handler (handler_ctx ctx w) req;
       duration ← time_Since startTime;
       Span_SetAttributes (length (spans w)) [("rpc.duration", DurationText duration)];;
       match err with
       | Some e =>
           Span_SetStatus (length (spans w)) codes.Error (status_Message e);;
           Span_RecordError (length (spans w)) e
       | None => Span_SetStatus (length (spans w)) codes.Ok "success"
       end;;
       mret (resp, err))
      (handler_world ctx info addr w).
Proof.
  intros Hpeer Haddr.
  unfold TracingInterceptor. rewrite Hpeer. cbn [deref].
  unfold mbind at 1, Go_bind at 1, mret at 1, Go_ret at 1.
  rewrite Haddr. cbn [deref].
  unfold mbind at 1, Go_bind at 1, mret at 1, Go_ret at 1.
  unfold mbind at 1, Go_bind at 1, Tracer_Start.
  unfold defer, handler_world.
  match goal with
  | |- context [record_metadata ?s ?md ?v] =>
      pose proof (record_metadata_Returns s md v) as Hmd;
      destruct (record_metadata s md v) as [r wmd] eqn:Emd
  end.
  cbn [fst snd] in *. subst r.
  unfold mbind at 1, Go_bind at 1. rewrite Emd. reflexivity.
Qed.

(** X23. The unary interceptor around a handler that returns and leaves the
    spans existing at its start alone: the caller gets the handler's
    response and error, and exactly one span is added.  It is named
    "grpc." followed by the method; carries the system, method and peer
    address, the first value of every incoming metadata entry that has one,
    and the handler's duration by the clock; has status Ok "success" when
    the error is nil, and otherwise status Error with the gRPC status
    message (the error text for other errors) and the error recorded once;
    and is ended exactly once. *)
Theorem TracingInterceptor_effect
    (tracer : Tracer) (ctx : Context) (req : any) (info : UnaryServerInfo)
    (handler : UnaryHandler) (w w2 : World) (p : Peer) (addr : string)
    (resp : any) (err : option error) (extra : list Span) :
  peer_FromContext ctx = Some p ->
  peer_Addr p = Some addr ->
  handler (handler_ctx ctx w) req (handler_world ctx info addr w)
    = (Returns (resp, err), w2) ->
  spans w2 = spans (handler_world ctx info addr w) ++ extra ->
  TracingInterceptor tracer ctx req info handler w
  = (Returns (resp, err),
     set_spans (spans w ++ unary_Span ctx info addr (Some (clock w2 - clock w, err))
                          :: extra) w2).
Proof.
  intros Hpeer Haddr Hcall Hframe.
  rewrite (TracingInterceptor_run tracer ctx req info handler w p addr Hpeer Haddr).
  rewrite handler_world_run in Hframe. cbn [spans set_spans] in Hframe.
  rewrite <- app_assoc in Hframe. cbn [app] in Hframe.
  unfold defer, time_Now.
  unfold mbind at 1, Go_bind at 1. unfold mbind at 1, Go_bind at 1.
  rewrite Hcall.
  assert (Hclock : clock (handler_world ctx info addr w) = clock w)
    by (rewrite handler_world_run; reflexivity).
  rewrite Hclock.
  unfold time_Since. unfold mbind at 1, Go_bind at 1.
  destruct err as [e |]; run_span_calls; rewrite Hframe, !alter_middle;
    reflexivity.
Qed.

Lemma TracingInterceptor_effect_witness :
  TracingInterceptor (mkTracer 0 "grpc-server") md_ctx (AnyString "id-7")
    (mkUnaryServerInfo "/users.Users/Get") handler_status_error world0
  = (Returns (AnyNil, Some (GrpcStatus "NotFound" "no such user")),
     mkWorld env_ok 7000000
       [ mkSpan "grpc./users.Users/Get"
           [ ("rpc.system", StringValue "grpc");
             ("rpc.method", StringValue "/users.Users/Get");
             ("peer.address", StringValue "10.0.0.7:41000");
             ("rpc.metadata.authorization", StringValue "Bearer t");
             ("rpc.duration", DurationText 7000000) ]
           (codes.Error, "no such user")
           [GrpcStatus "NotFound" "no such user"] 1 ]
       [] [] [] None [] None ∅ []).
Proof.
  rewrite (TracingInterceptor_effect (mkTracer 0 "grpc-server") md_ctx
             (AnyString "id-7") (mkUnaryServerInfo "/users.Users/Get")
             handler_status_error world0
             (snd (handler_status_error
                     (handler_ctx md_ctx world0) (AnyString "id-7")
                     (handler_world md_ctx (mkUnaryServerInfo "/users.Users/Get")
                        "10.0.0.7:41000" world0)))
             (mkPeer (Some "10.0.0.7:41000")) "10.0.0.7:41000" AnyNil
             (Some (GrpcStatus "NotFound" "no such user")) []);
    [reflexivity | reflexivity | reflexivity | reflexivity |].
  cbn [handler_status_error snd spans]. symmetry. apply app_nil_r.
Defined.

(** X24. The unary interceptor around a handler that panics: the panic
    reaches the caller, and the span the interceptor started is still ended
    exactly once; it has no duration attribute, no recorded error and an
    unset status. *)
Theorem TracingInterceptor_handler_panic
    (tracer : Tracer) (ctx : Context) (req : any) (info : UnaryServerInfo)
    (handler : UnaryHandler) (w w2 : World) (p : Peer) (addr : string)
    (msg : string) (extra : list Span) :
  peer_FromContext ctx = Some p ->
  peer_Addr p = Some addr ->
  handler (handler_ctx ctx w) req (handler_world ctx info addr w)
    = (Panics msg, w2) ->
  spans w2 = spans (handler_world ctx info addr w) ++ extra ->
  TracingInterceptor tracer ctx req info handler w
  = (Panics msg,
     set_spans (spans w ++ unary_Span ctx info addr None :: extra) w2).
Proof.
  intros Hpeer Haddr Hcall Hframe.
  rewrite (TracingInterceptor_run tracer ctx req info handler w p addr Hpeer Haddr).
  rewrite handler_world_run in Hframe. cbn [spans set_spans] in Hframe.
  rewrite <- app_assoc in Hframe. cbn [app] in Hframe.
  unfold defer, time_Now.
  unfold mbind at 1, Go_bind at 1. unfold mbind at 1, Go_bind at 1.
  rewrite Hcall. run_span_calls. rewrite Hframe, alter_middle. reflexivity.
Qed.

Lemma TracingInterceptor_handler_panic_witness :
  TracingInterceptor (mkTracer 0 "grpc-server") peer_ctx AnyNil
    (mkUnaryServerInfo "/users.Users/Get") handler_panics world0
  = (Panics "index out of range",
     set_spans [mkSpan "grpc./users.Users/Get"
                  [ ("rpc.system", StringValue "grpc");
                    ("rpc.method", StringValue "/users.Users/Get");
                    ("peer.address", StringValue "10.0.0.7:41000") ]
                  (codes.Unset, "") [] 1] world0).
Proof.
  rewrite (TracingInterceptor_handler_panic (mkTracer 0 "grpc-server") peer_ctx
             AnyNil (mkUnaryServerInfo "/users.Users/Get") handler_panics world0
             (handler_world peer_ctx (mkUnaryServerInfo "/users.Users/Get")
                "10.0.0.7:41000" world0)
             (mkPeer (Some "10.0.0.7:41000")) "10.0.0.7:41000"
             "index out of range" []);
    [reflexivity | reflexivity | reflexivity | reflexivity |].
  symmetry. apply app_nil_r.
Defined.

(** X25. Without a peer in the context, or with a peer whose address is
    nil, the unary interceptor panics on the nil pointer before it starts a
    span and before it calls the handler: the process is as it was. *)
Theorem TracingInterceptor_without_peer
    (tracer : Tracer) (ctx : Context) (req : any) (info : UnaryServerInfo)
    (handler : UnaryHandler) (w : World) :
  peer_FromContext ctx = None \/
  (exists p, peer_FromContext ctx = Some p /\ peer_Addr p = None) ->
  TracingInterceptor tracer ctx req info handler w = (Panics nil_dereference, w).
Proof.
  intros [Hnone | (p & Hp & Haddr)]; unfold TracingInterceptor.
  - rewrite Hnone. reflexivity.
  - rewrite Hp. cbn [deref]. unfold mbind at 1, Go_bind at 1, mret at 1, Go_ret at 1.
    rewrite Haddr. reflexivity.
Qed.

Lemma TracingInterceptor_without_peer_witness :
  TracingInterceptor (mkTracer 0 "grpc-server") context.Background AnyNil
    (mkUnaryServerInfo "/users.Users/Get") handler_not_found world0
  = (Panics nil_dereference, world0).
Proof.
  apply (TracingInterceptor_without_peer (mkTracer 0 "grpc-server")
           context.Background AnyNil (mkUnaryServerInfo "/users.Users/Get")
           handler_not_found world0).
  left. reflexivity.
Defined.

(** ** The stream interceptor *)

Lemma StreamTracingInterceptor_run (tracer : Tracer) (srv : any)
    (ss : ServerStream) (info : StreamServerInfo) (handler : StreamHandler)
    (w : World) (p : Peer) (addr : string) :
  peer_FromContext (ss_Context ss) = Some p ->
  peer_Addr p = Some addr ->
  StreamTracingInterceptor tracer srv ss info handler w
  = defer (Span_End (length (spans w)))
      (startTime ← time_Now;
       err ← handler srv (handler_stream ss w);
       duration ← time_Since startTime;
       Span_SetAttributes (length (spans w)) [("rpc.duration", DurationText duration)];;
       match err with
       | Some e =>
           Span_SetStatus (length (spans w)) codes.Error (status_Message e);;
           Span_RecordError (length (spans w)) e
       | None => Span_SetStatus (length (spans w)) codes.Ok "success"
       end;;
       mret err)
      (stream_world ss info addr w).
Proof.
  intros Hpeer Haddr.
  unfold StreamTracingInterceptor. rewrite Hpeer. cbn [deref].
  unfold mbind at 1, Go_bind at 1, mret at 1, Go_ret at 1.
  rewrite Haddr. cbn [deref].
  unfold mbind at 1, Go_bind at 1, mret at 1, Go_ret at 1.
  unfold mbind at 1, Go_bind at 1, Tracer_Start.
  unfold defer.
  unfold mbind at 1, Go_bind at 1.
  erewrite record_metadata_run
    by (cbn [spans set_spans]; apply list_lookup_middle; reflexivity).
  cbn [spans set_spans span_name span_attributes span_status span_errors span_ended
       new_Span].
  rewrite insert_app_r_alt by lia. rewrite Nat.sub_diag. reflexivity.
Qed.

(** X26. The stream interceptor around a handler that returns and leaves
    the spans existing at its start alone.  The handler is given a stream
    whose context carries the new span as the current span and answers
    every other key as the original stream's context, and whose five other
    operations are the original stream's.  The caller gets the handler's
    error unchanged, and exactly one span is added: named "grpc.stream."
    followed by the method, carrying the stream type among its attributes,
    with status Ok "success" or Error with the status message and the error
    recorded once, and ended exactly once. *)
Theorem StreamTracingInterceptor_effect
    (tracer : Tracer) (srv : any) (ss : ServerStream) (info : StreamServerInfo)
    (handler : StreamHandler) (w w2 : World) (p : Peer) (addr : string)
    (err : option error) (extra : list Span) :
  peer_FromContext (ss_Context ss) = Some p ->
  peer_Addr p = Some addr ->
  handler srv (handler_stream ss w) (stream_world ss info addr w) = (Returns err, w2) ->
  spans w2 = spans (stream_world ss info addr w) ++ extra ->
  StreamTracingInterceptor tracer srv ss info handler w
  = (Returns err,
     set_spans (spans w ++ stream_Span ss info addr (Some (clock w2 - clock w, err))
                          :: extra) w2) /\
  context.Value (ss_Context (handler_stream ss w)) currentSpanKey
  = Some (SpanValue (length (spans w))) /\
  (forall k, k <> currentSpanKey ->
     context.Value (ss_Context (handler_stream ss w)) k
     = context.Value (ss_Context ss) k) /\
  ss_SetHeader (handler_stream ss w) = ss_SetHeader ss /\
  ss_SendHeader (handler_stream ss w) = ss_SendHeader ss /\
  ss_SetTrailer (handler_stream ss w) = ss_SetTrailer ss /\
  ss_SendMsg (handler_stream ss w) = ss_SendMsg ss /\
  ss_RecvMsg (handler_stream ss w) = ss_RecvMsg ss.
Proof.
  intros Hpeer Haddr Hcall Hframe.
  split; [| split; [reflexivity | split; [| repeat split]]].
  - rewrite (StreamTracingInterceptor_run tracer srv ss info handler w p addr
               Hpeer Haddr).
    cbn [stream_world spans set_spans] in Hframe.
    rewrite <- app_assoc in Hframe. cbn [app] in Hframe.
    unfold defer, time_Now.
    unfold mbind at 1, Go_bind at 1. unfold mbind at 1, Go_bind at 1.
    rewrite Hcall. cbn [stream_world clock set_spans].
    unfold time_Since. unfold mbind at 1, Go_bind at 1.
    destruct err as [e |]; run_span_calls; rewrite Hframe, !alter_middle;
      reflexivity.
  - intros k Hk. unfold handler_stream, as_ServerStream, wrapped_Context, handler_ctx.
    cbn [ss_Context wrapped_ctx]. apply context_Value_other. congruence.
Qed.

Lemma StreamTracingInterceptor_effect_witness :
  StreamTracingInterceptor (mkTracer 0 "grpc-server") AnyNil upload_stream
    upload_info upload_handler world0
  = (Returns (Some (ErrorString "quota exceeded")),
     set_spans [mkSpan "grpc.stream./files.Files/Upload"
                  [ ("rpc.system", StringValue "grpc");
                    ("rpc.method", StringValue "/files.Files/Upload");
                    ("rpc.stream.type", StringValue "client");
                    ("peer.address", StringValue "10.0.0.7:41000");
                    ("rpc.duration", DurationText 0) ]
                  (codes.Error, "quota exceeded")
                  [ErrorString "quota exceeded"] 1] world0).
Proof.
  destruct (StreamTracingInterceptor_effect (mkTracer 0 "grpc-server") AnyNil
              upload_stream upload_info upload_handler world0
              (stream_world upload_stream upload_info "10.0.0.7:41000" world0)
              (mkPeer (Some "10.0.0.7:41000")) "10.0.0.7:41000"
              (Some (ErrorString "quota exceeded")) [])
    as [Hrun _];
    [reflexivity | reflexivity | reflexivity | symmetry; apply app_nil_r |].
  rewrite Hrun. reflexivity.
Defined.

(** ** The HTTP middleware *)

Lemma last_nonempty_default {A : Type} (l : list A) (a d d' : A) :
  List.last (a :: l) d = List.last (a :: l) d'.
Proof.
  revert a. induction l as [| b l IH]; intros a; [reflexivity |].
  change (List.last (b :: l) d = List.last (b :: l) d'). apply IH.
Qed.

(** X27. The response-writer wrapper after any sequence of [WriteHeader]
    calls: the captured status code is the code of the last call, and 200
    when there was none; the embedded writer has received every call, in
    order. *)
Theorem WriteHeader_captures_last (w : Writer) (calls : list Z) :
  statusCode (fold_left WriteHeader calls (wrapResponseWriter w))
  = List.last calls StatusOK /\
  wr_codes (rw_ResponseWriter (fold_left WriteHeader calls (wrapResponseWriter w)))
  = wr_codes w ++ calls /\
  wr_bodies (rw_ResponseWriter (fold_left WriteHeader calls (wrapResponseWriter w)))
  = wr_bodies w.
Proof.
  assert (H : forall rw,
             statusCode (fold_left WriteHeader calls rw) = List.last calls (statusCode rw) /\
             wr_codes (rw_ResponseWriter (fold_left WriteHeader calls rw))
             = wr_codes (rw_ResponseWriter rw) ++ calls /\
             wr_bodies (rw_ResponseWriter (fold_left WriteHeader calls rw))
             = wr_bodies (rw_ResponseWriter rw)).
  { induction calls as [| c rest IH]; intros rw.
    - cbn. rewrite app_nil_r. repeat split.
    - cbn [fold_left]. destruct (IH (WriteHeader rw c)) as (H1 & H2 & H3).
      rewrite H1, H2, H3. cbn [WriteHeader statusCode rw_ResponseWriter
                                Writer_WriteHeader wr_codes wr_bodies].
      rewrite <- app_assoc. repeat split.
      destruct rest as [| z rest]; [reflexivity |].
      change (List.last (z :: rest) c = List.last (z :: rest) (statusCode rw)).
      apply last_nonempty_default. }
  apply (H (wrapResponseWriter w)).
Qed.

Lemma TraceMiddleware_run (tracer : Tracer) (next : WrappedHandler) (w : Writer)
    (r : Request) (v : World) :
  TraceMiddleware tracer next w r v
  = defer (Span_End (length (spans v)))
      (startTime ← time_Now;
       wrapped ← next (wrapResponseWriter w) (http_request r v);
       duration ← time_Since startTime;
       Span_SetAttributes (length (spans v))
         [ attribute.Int "http.status_code" (statusCode wrapped);
           ("http.duration", DurationText duration) ];;
       mret (rw_ResponseWriter wrapped))
      (http_world r v).
Proof. reflexivity. Qed.

(** X28. The middleware around a handler that returns and leaves the spans
    existing at its start alone: the embedded writer comes back as the
    handler left it, and exactly one span is added.  It is named "http."
    followed by the method, a dot and the path; carries method, URL and
    path, the status code the wrapper captured and the handler's duration
    by the clock; is ended exactly once; and has no status and no recorded
    error, whatever the status code. *)
Theorem TraceMiddleware_effect (tracer : Tracer) (next : WrappedHandler)
    (w : Writer) (r : Request) (v v2 : World) (rw : responseWriter)
    (extra : list Span) :
  next (wrapResponseWriter w) (http_request r v) (http_world r v) = (Returns rw, v2) ->
  spans v2 = spans (http_world r v) ++ extra ->
  TraceMiddleware tracer next w r v
  = (Returns (rw_ResponseWriter rw),
     set_spans (spans v ++ http_Span r (Some (statusCode rw, clock v2 - clock v))
                          :: extra) v2).
Proof.
  intros Hcall Hframe. rewrite TraceMiddleware_run.
  cbn [http_world spans set_spans] in Hframe.
  rewrite <- app_assoc in Hframe. cbn [app] in Hframe.
  unfold defer, time_Now.
  unfold mbind at 1, Go_bind at 1. unfold mbind at 1, Go_bind at 1.
  rewrite Hcall. cbn [http_world clock set_spans].
  unfold time_Since. unfold mbind at 1, Go_bind at 1.
  run_span_calls. rewrite Hframe, !alter_middle. reflexivity.
Qed.

Lemma TraceMiddleware_effect_witness :
  TraceMiddleware (mkTracer 0 "http-server") failing_handler writer0 get_user world0
  = (Returns (mkWriter [500; 404] ["oops"]),
     set_spans [mkSpan "http.GET./user/7"
                  [ ("http.method", StringValue "GET");
                    ("http.url", StringValue "/user/7?verbose=1");
                    ("http.path", StringValue "/user/7");
                    ("http.status_code", IntValue 404);
                    ("http.duration", DurationText 0) ]
                  (codes.Unset, "") [] 1] world0).
Proof.
  rewrite (TraceMiddleware_effect (mkTracer 0 "http-server") failing_handler
             writer0 get_user world0 (http_world get_user world0)
             (responseWriter_Write
                (WriteHeader (WriteHeader (wrapResponseWriter writer0) 500) 404) "oops")
             []);
    [reflexivity | reflexivity | symmetry; apply app_nil_r].
Defined.

(** X29. The middleware around a handler that panics: the panic reaches the
    server, and the span the middleware started is still ended exactly
    once; it carries neither status code nor duration. *)
Theorem TraceMiddleware_handler_panic (tracer : Tracer) (next : WrappedHandler)
    (w : Writer) (r : Request) (v v2 : World) (msg : string) (extra : list Span) :
  next (wrapResponseWriter w) (http_request r v) (http_world r v) = (Panics msg, v2) ->
  spans v2 = spans (http_world r v) ++ extra ->
  TraceMiddleware tracer next w r v
  = (Panics msg, set_spans (spans v ++ http_Span r None :: extra) v2).
Proof.
  intros Hcall Hframe. rewrite TraceMiddleware_run.
  cbn [http_world spans set_spans] in Hframe.
  rewrite <- app_assoc in Hframe. cbn [app] in Hframe.
  unfold defer, time_Now.
  unfold mbind at 1, Go_bind at 1. unfold mbind at 1, Go_bind at 1.
  rewrite Hcall. run_span_calls. rewrite Hframe, alter_middle. reflexivity.
Qed.

Lemma TraceMiddleware_handler_panic_witness :
  TraceMiddleware (mkTracer 0 "http-server") panicking_handler writer0 get_user world0
  = (Panics "nil map",
     set_spans [mkSpan "http.GET./user/7"
                  [ ("http.method", StringValue "GET");
                    ("http.url", StringValue "/user/7?verbose=1");
                    ("http.path", StringValue "/user/7") ]
                  (codes.Unset, "") [] 1] world0).
Proof.
  rewrite (TraceMiddleware_handler_panic (mkTracer 0 "http-server")
             panicking_handler writer0 get_user world0
             (http_world get_user world0) "nil map" []);
    [reflexivity | reflexivity | symmetry; apply app_nil_r].
Defined.

(** ** options.go: only the last value of each field counts *)

Lemma options_ext (a b : options) :
  (forall f, get_field f a = get_field f b) -> a = b.
Proof.
  intros H. destruct a, b.
  pose proof (H FServiceName) as H1. pose proof (H FServiceVersion) as H2.
  pose proof (H FEnvironment) as H3. pose proof (H FProtocol) as H4.
  pose proof (H FEndpoint) as H5. pose proof (H FInsecure) as H6.
  pose proof (H FTimeout) as H7. pose proof (H FSamplingRatio) as H8.
  pose proof (H FBatchTimeout) as H9. pose proof (H FExportTimeout) as H10.
  pose proof (H FMaxExportBatchSize) as H11. pose proof (H FMaxQueueSize) as H12.
  cbn in *. congruence.
Qed.

(** X30. The settings a sequence of [With...] options builds depend only on
    the last argument given to each field: two sequences that agree on it
    for every field build the same settings, so options naming different
    fields may be passed in any order and an option overridden later may
    be dropped. *)
Theorem applyOptions_depends_on_last (cs cs' : list Call) :
  (forall f, last_set f cs = last_set f cs') ->
  applyOptions (map to_Option cs) defaultOptions
  = applyOptions (map to_Option cs') defaultOptions.
Proof.
  intros Hlast.
  destruct (applyOptions_last_set cs defaultOptions) as (o & Ho & Hget).
  destruct (applyOptions_last_set cs' defaultOptions) as (o' & Ho' & Hget').
  rewrite Ho, Ho'. f_equal. apply options_ext.
  intros f. rewrite Hget, Hget', Hlast. reflexivity.
Qed.

Lemma applyOptions_depends_on_last_witness :
  applyOptions [WithEndpoint "a:1"; WithInsecure false; WithEndpoint "b:2"]
    defaultOptions
  = applyOptions [WithEndpoint "b:2"; WithInsecure false] defaultOptions.
Proof.
  apply (applyOptions_depends_on_last
           [CEndpoint "a:1"; CInsecure false; CEndpoint "b:2"]
           [CEndpoint "b:2"; CInsecure false]).
  intros f. destruct f; reflexivity.
Defined.
